(** * Phoenix Workout API (backend/main.py): a shallow embedding

    The service is a handful of request handlers over an in-memory exercise
    catalog.  Each handler of [backend/main.py] is embedded as a function of
    the same name.  Python [int] is [Z], [len] is [length], [str] is
    [string], holding the UTF-8 bytes of the text (so equal texts are equal
    strings, and the empty text is the empty string), a JSON object returned
    by a handler is a record, and an exception leaving a handler is the
    [Raise] branch of [outcome].  The method [str.upper] is Unicode-aware and
    belongs to Python's library: [get_hybrid_exercises] takes it as a
    parameter, and [ascii_upper] is what it does on ASCII text.  The two reads of the outside
    world in [generate_workout_plan] (the random bytes behind [uuid4()] and
    the clock behind [datetime.utcnow()]) are explicit arguments. *)

From Stdlib Require Import ZArith NArith List Bool Lia QArith.
From Stdlib Require Import Ascii String DecimalString.
Import ListNotations.
Local Open Scope string_scope.
Local Open Scope Z_scope.

(** ** Exceptions and handler outcomes *)

(** The exceptions that can leave a handler: [HTTPException(status_code,
    detail)] raised by the code itself, and the [TypeError] that the
    [datetime] library raises when a naive and an aware timestamp meet. *)
Inductive exn : Type :=
| HTTPException (status_code : Z) (detail : string)
| TypeError (msg : string).

Inductive outcome (A : Type) : Type :=
| Return (a : A)
| Raise (e : exn).
Arguments Return {A} a.
Arguments Raise {A} e.

Definition bind {A B} (m : outcome A) (k : A -> outcome B) : outcome B :=
  match m with
  | Return a => k a
  | Raise e => Raise e
  end.

Notation "x <- m ;; k" := (bind m (fun x => k))
  (at level 61, m at next level, right associativity).

(** ** Auth *)

(** [get_user_id]: [if not x_user_id] holds for a missing header and for a
    header whose value is the empty string. *)
Definition get_user_id (x_user_id : option string) : outcome string :=
  match x_user_id with
  | None => Raise (HTTPException 401 "X-User-Id header required")
  | Some s =>
      if String.eqb s EmptyString then
        Raise (HTTPException 401 "X-User-Id header required")
      else Return s
  end.

(** ** The [datetime] library as far as the handlers use it *)

Module datetime.

(** [tzinfo] is [None] for a naive timestamp and otherwise the fixed
    offset from UTC, in seconds, of the zone parsed from the request. *)
Record t : Type := mk {
  year : Z; month : Z; day : Z;
  hour : Z; minute : Z; second : Z; microsecond : Z;
  tzinfo : option Z
}.

Record timedelta : Type := mk_raw {
  days : Z; seconds : Z; microseconds : Z
}.

(** [timedelta(days, seconds, microseconds)] on integers: carries are
    propagated so that [0 <= microseconds < 10^6] and
    [0 <= seconds < 86400]; only [days] can be negative. *)
Definition new_timedelta (d s us : Z) : timedelta :=
  let s' := s + us / 1000000 in
  mk_raw (d + s' / 86400) (s' mod 86400) (us mod 1000000).

Definition td_add (a b : timedelta) : timedelta :=
  new_timedelta (days a + days b) (seconds a + seconds b)
                (microseconds a + microseconds b).

Definition td_sub (a b : timedelta) : timedelta :=
  new_timedelta (days a - days b) (seconds a - seconds b)
                (microseconds a - microseconds b).

Definition _is_leap (y : Z) : bool :=
  (y mod 4 =? 0) && (negb (y mod 100 =? 0) || (y mod 400 =? 0)).

Definition _days_before_year (y : Z) : Z :=
  let y1 := y - 1 in
  y1 * 365 + y1 / 4 - y1 / 100 + y1 / 400.

Definition _DAYS_BEFORE_MONTH : list Z :=
  [0; 31; 59; 90; 120; 151; 181; 212; 243; 273; 304; 334].

Definition _days_before_month (y m : Z) : Z :=
  nth (Z.to_nat (m - 1)) _DAYS_BEFORE_MONTH 0
  + (if (2 <? m) && _is_leap y then 1 else 0).

Definition _DAYS_IN_MONTH : list Z :=
  [31; 28; 31; 30; 31; 30; 31; 31; 30; 31; 30; 31].

Definition _days_in_month (y m : Z) : Z :=
  if (m =? 2) && _is_leap y then 29
  else nth (Z.to_nat (m - 1)) _DAYS_IN_MONTH 0.

Definition toordinal (a : t) : Z :=
  _days_before_year (year a) + _days_before_month (year a) (month a) + day a.

(** The field ranges the [datetime] constructor checks. *)
Definition valid (a : t) : bool :=
  (1 <=? year a) && (year a <=? 9999)
  && (1 <=? month a) && (month a <=? 12)
  && (1 <=? day a) && (day a <=? _days_in_month (year a) (month a))
  && (0 <=? hour a) && (hour a <=? 23)
  && (0 <=? minute a) && (minute a <=? 59)
  && (0 <=? second a) && (second a <=? 59)
  && (0 <=? microsecond a) && (microsecond a <=? 999999)
  && match tzinfo a with
     | None => true
     | Some off => (-86400 <? off) && (off <? 86400)
     end.

(** [a - b]: the difference of the wall-clock fields, corrected by the two
    offsets when both timestamps are aware; subtracting a naive and an
    aware timestamp is a [TypeError], with the text CPython gives it. *)
Definition sub (a b : t) : outcome timedelta :=
  let secs1 := second a + minute a * 60 + hour a * 3600 in
  let secs2 := second b + minute b * 60 + hour b * 3600 in
  let base := new_timedelta (toordinal a - toordinal b) (secs1 - secs2)
                            (microsecond a - microsecond b) in
  match tzinfo a, tzinfo b with
  | None, None => Return base
  | Some myoff, Some otoff =>
      if myoff =? otoff then Return base
      else Return (td_sub (td_add base (new_timedelta 0 otoff 0))
                          (new_timedelta 0 myoff 0))
  | _, _ =>
      Raise (TypeError "can't subtract offset-naive and offset-aware datetimes")
  end.

(** Lexicographic comparison of two integer tuples, as [_cmp] does. *)
Fixpoint tuple_cmp (x y : list Z) : comparison :=
  match x, y with
  | [], [] => Eq
  | [], _ :: _ => Lt
  | _ :: _, [] => Gt
  | a :: x', b :: y' =>
      match a ?= b with
      | Eq => tuple_cmp x' y'
      | c => c
      end
  end.

Definition fields (a : t) : list Z :=
  [year a; month a; day a; hour a; minute a; second a; microsecond a].

(** [datetime._cmp]: equal offsets (or two naive values) compare field by
    field; two different offsets compare through the sign of [a - b];
    a naive against an aware value is a [TypeError]. *)
Definition _cmp (a b : t) : outcome comparison :=
  match tzinfo a, tzinfo b with
  | None, None => Return (tuple_cmp (fields a) (fields b))
  | Some myoff, Some otoff =>
      if myoff =? otoff then Return (tuple_cmp (fields a) (fields b))
      else
        diff <- sub a b ;;
        if days diff <? 0 then Return Lt
        else if (days diff =? 0) && (seconds diff =? 0)
                && (microseconds diff =? 0)
             then Return Eq else Return Gt
  | _, _ => Raise (TypeError "can't compare offset-naive and offset-aware datetimes")
  end.

(** [a < b] and [a <= b]. *)
Definition lt (a b : t) : outcome bool :=
  c <- _cmp a b ;; Return (match c with Lt => true | _ => false end).

Definition le (a b : t) : outcome bool :=
  c <- _cmp a b ;; Return (match c with Gt => false | _ => true end).

End datetime.

(** ** Models *)

Module ExerciseType.
Definition VITRUVIAN  : string := "VITRUVIAN".
Definition DUMBBELL   : string := "DUMBBELL".
Definition BARBELL    : string := "BARBELL".
Definition BODYWEIGHT : string := "BODYWEIGHT".
Definition TRX        : string := "TRX".
Definition MACHINE    : string := "MACHINE".
Definition REST_TIMER : string := "REST_TIMER".

(** The seven values of the class, in declaration order. *)
Definition values : list string :=
  [VITRUVIAN; DUMBBELL; BARBELL; BODYWEIGHT; TRX; MACHINE; REST_TIMER].
End ExerciseType.

(** A [float] field holds a finite binary64 value in every use the handlers
    make of it; such a value is a rational. *)
Module PlannedSet.
Record t : Type := mk {
  set_number : Z;
  set_type : string;
  target_reps : option Z;
  target_weight_kg : option Q;
  target_rpe : option Z;
  rest_seconds : Z
}.

(** [PlannedSet(set_number=.., set_type=.., target_reps=..,
    target_weight_kg=.., rest_seconds=..)] with [target_rpe] left at its
    default [None].  The other defaults ([set_type="STANDARD"],
    [target_reps=None], [target_weight_kg=None], [rest_seconds=60]) are
    written out at each call. *)
Definition new (set_number : Z) (set_type : string) (target_reps : option Z)
    (target_weight_kg : option Q) (rest_seconds : Z) : t :=
  mk set_number set_type target_reps target_weight_kg None rest_seconds.
End PlannedSet.

Module PlannedExercise.
Record t : Type := mk {
  order_index : Z;
  exercise_id : string;
  exercise_name : string;
  exercise_type : string;
  muscle_group : string;
  sets : list PlannedSet.t;
  rest_seconds : Z;
  coaching_note : option string;
  cable_config : option string;
  is_travel_substitute : bool
}.
End PlannedExercise.

Module WorkoutPlan.
Record t : Type := mk {
  plan_id : string;
  user_id : string;
  generated_at : datetime.t;
  workout_name : string;
  estimated_duration_minutes : Z;
  exercises : list PlannedExercise.t;
  ai_notes : option string
}.
End WorkoutPlan.

Module CompletedSetLog.
Record t : Type := mk {
  exercise_id : string;
  set_number : Z;
  actual_reps : Z;
  actual_weight_kg : Q;
  logged_rpe : option Z;
  is_pr : bool
}.
End CompletedSetLog.

Module WorkoutCompletionLog.
Record t : Type := mk {
  plan_id : option string;
  user_id : string;
  started_at : datetime.t;
  completed_at : datetime.t;
  sets : list CompletedSetLog.t;
  notes : option string
}.
End WorkoutCompletionLog.

Module ExerciseDefinition.
Record t : Type := mk {
  id : string;
  name : string;
  exercise_type : string;
  muscle_group : string;
  equipment : string;
  description : option string;
  coaching_note : option string;
  default_cable_config : option string
}.

(** [ExerciseDefinition(id=.., name=.., exercise_type=.., muscle_group=..,
    equipment=.., coaching_note=..)]: the seed data sets these six fields
    and leaves [description] and [default_cable_config] at [None]. *)
Definition seed (id name exercise_type muscle_group equipment note : string) : t :=
  mk id name exercise_type muscle_group equipment None (Some note) None.
End ExerciseDefinition.

(** ** Exercise library (seed data) *)

(** The one-character string holding a double quote (code 34). *)
Definition dquote : string := String (ascii_of_nat 34) EmptyString.

Definition HYBRID_EXERCISE_LIBRARY : list ExerciseDefinition.t :=
  [
    ExerciseDefinition.seed "db-chest-press" "Dumbbell Chest Press"
      ExerciseType.DUMBBELL "CHEST" "DUMBBELL"
      "Neutral spine, scapulae retracted. Lower until elbows at 90°.";
    ExerciseDefinition.seed "db-row" "Dumbbell Row"
      ExerciseType.DUMBBELL "BACK" "DUMBBELL"
      "Brace core. Drive elbow to hip, not shoulder.";
    ExerciseDefinition.seed "db-shoulder-press" "Dumbbell Shoulder Press"
      ExerciseType.DUMBBELL "SHOULDERS" "DUMBBELL"
      "Do not hyperextend lumbar. Press vertical, not forward.";
    ExerciseDefinition.seed "db-rdl" "Romanian Deadlift (DB)"
      ExerciseType.DUMBBELL "HAMSTRINGS" "DUMBBELL"
      "Hip hinge, not squat. Maintain neutral spine throughout.";
    ExerciseDefinition.seed "db-lateral-raise" "Lateral Raise"
      ExerciseType.DUMBBELL "SHOULDERS" "DUMBBELL"
      "Lead with elbows, not wrists. Stop at shoulder height.";
    ExerciseDefinition.seed "db-bicep-curl" "Dumbbell Bicep Curl"
      ExerciseType.DUMBBELL "BICEPS" "DUMBBELL"
      "Supinate at the top. Control the eccentric.";
    ExerciseDefinition.seed "db-tricep-kickback" "Tricep Kickback"
      ExerciseType.DUMBBELL "TRICEPS" "DUMBBELL"
      "Upper arm parallel to floor. Full extension at top.";
    ExerciseDefinition.seed "db-goblet-squat" "Goblet Squat"
      ExerciseType.DUMBBELL "QUADS" "DUMBBELL"
      "Elbows inside knees at bottom. Drive through heels.";
    ExerciseDefinition.seed "bw-pushup" "Push-Up"
      ExerciseType.BODYWEIGHT "CHEST" "BODYWEIGHT"
      "Rigid plank from head to heel. Elbows 45° from torso.";
    ExerciseDefinition.seed "bw-pullup" "Pull-Up"
      ExerciseType.BODYWEIGHT "BACK" "BODYWEIGHT"
      "Dead hang start. Drive elbows down to lats, not shoulders.";
    ExerciseDefinition.seed "bw-dip" "Dip"
      ExerciseType.BODYWEIGHT "TRICEPS" "BODYWEIGHT"
      "Slight forward lean for chest emphasis. Don't flare elbows.";
    ExerciseDefinition.seed "bw-plank" "Plank"
      ExerciseType.BODYWEIGHT "CORE" "BODYWEIGHT"
      "Neutral spine. Squeeze glutes and abs. Don't hold breath.";
    ExerciseDefinition.seed "bw-squat" "Bodyweight Squat"
      ExerciseType.BODYWEIGHT "QUADS" "BODYWEIGHT"
      "Feet shoulder-width. Knees track toes. Full depth if mobility allows.";
    ExerciseDefinition.seed "bw-lunge" "Reverse Lunge"
      ExerciseType.BODYWEIGHT "QUADS" "BODYWEIGHT"
      ("Step back, not forward. Rear knee hovers 1" ++ dquote ++ " above floor.");
    ExerciseDefinition.seed "bw-glute-bridge" "Glute Bridge"
      ExerciseType.BODYWEIGHT "GLUTES" "BODYWEIGHT"
      "Drive through heels. Full hip extension at top. Pause 1 second.";
    ExerciseDefinition.seed "trx-row" "TRX Row"
      ExerciseType.TRX "BACK" "TRX"
      "Body angle controls difficulty. Retract scapulae before pulling.";
    ExerciseDefinition.seed "trx-chest-press" "TRX Chest Press"
      ExerciseType.TRX "CHEST" "TRX"
      "Lean forward for more load. Keep rigid plank throughout.";
    ExerciseDefinition.seed "trx-bicep-curl" "TRX Bicep Curl"
      ExerciseType.TRX "BICEPS" "TRX"
      "Elbows fixed, walk feet forward for more load.";
    ExerciseDefinition.seed "trx-squat" "TRX Squat"
      ExerciseType.TRX "QUADS" "TRX"
      "Hold handles for counterbalance. Allows deeper squat.";
    ExerciseDefinition.seed "trx-plank" "TRX Plank"
      ExerciseType.TRX "CORE" "TRX"
      "Feet in straps. Harder than floor plank — high core demand.";
    ExerciseDefinition.seed "rest-60" "Rest (60 sec)"
      ExerciseType.REST_TIMER "RECOVERY" "NONE"
      "Active recovery. Breathe. Shake out the pump.";
    ExerciseDefinition.seed "rest-90" "Rest (90 sec)"
      ExerciseType.REST_TIMER "RECOVERY" "NONE"
      "Longer recovery for heavy compound sets.";
    ExerciseDefinition.seed "rest-120" "Rest (2 min)"
      ExerciseType.REST_TIMER "RECOVERY" "NONE"
      "Full recovery. Used after max-effort sets."
  ].

(** ** Strings *)

(** ASCII text: every byte is below 128, so every character is one byte. *)
Fixpoint ascii_only (s : string) : bool :=
  match s with
  | EmptyString => true
  | String c s' => (nat_of_ascii c <? 128)%nat && ascii_only s'
  end.

(** What [str.upper()] does on ASCII text: the letters [a]-[z] (codes
    97-122) move to [A]-[Z]; every other character stays.  On other text
    [str.upper()] applies the case mappings of Unicode, which this function
    does not describe: it stands for [str.upper()] at ASCII arguments
    only. *)
Definition ascii_upper_char (c : ascii) : ascii :=
  let n := nat_of_ascii c in
  if (97 <=? n)%nat && (n <=? 122)%nat then ascii_of_nat (n - 32) else c.

Fixpoint ascii_upper (s : string) : string :=
  match s with
  | EmptyString => EmptyString
  | String c s' => String (ascii_upper_char c) (ascii_upper s')
  end.

(** What the properties below know of [str.upper]: on ASCII text it is
    [ascii_upper].  Nothing is said of it on other text. *)
Definition upper_agrees_on_ascii (upper : string -> string) : Prop :=
  forall s, ascii_only s = true -> upper s = ascii_upper s.

(** Truth value of a [str]: false exactly for the empty string. *)
Definition truthy (s : string) : bool := negb (String.eqb s EmptyString).

(** [str(n)] for an [int]. *)
Definition str (n : Z) : string := NilZero.string_of_int (Z.to_int n).

(** ** [uuid4().hex] *)

Module uuid.

Definition hex_digit (d : N) : ascii :=
  (if d <? 10 then ascii_of_N (48 + d) else ascii_of_N (87 + d))%N.

(** ['%0kx' % n] for [n < 16^k]: the [k] hexadecimal digits of [n], most
    significant first.  [UUID.hex] is ['%032x' % self.int] and a UUID's
    [int] is below [2^128]. *)
Fixpoint hex_fixed (k : nat) (n : N) : string :=
  match k with
  | O => EmptyString
  | S k' =>
      String (hex_digit ((n / 16 ^ N.of_nat k') mod 16)%N) (hex_fixed k' n)
  end.

Definition hex (int : N) : string := hex_fixed 32 int.

(** [uuid4()] is [UUID(bytes=os.urandom(16), version=4)]: [rand] is the
    16 random bytes read as a big-endian number, on which the constructor
    sets the variant bits (63-62, to binary 10) and the version bits
    (79-76, to 4). *)
Definition uuid4 (rand : N) : N :=
  let int := rand in
  let int := N.ldiff int (N.shiftl 0xc000 48) in
  let int := N.lor int (N.shiftl 0x8000 48) in
  let int := N.ldiff int (N.shiftl 0xf000 64) in
  let int := N.lor int (N.shiftl 4 76) in
  int.

End uuid.

(** ** Workout generation *)

(** [generate_workout_plan(user_id, user_history=None)].  [rand] is what
    [os.urandom(16)] delivers to [uuid4()] during the call and [now] is what
    [datetime.utcnow()] reads. *)
Definition generate_workout_plan {H : Type} (rand : N) (now : datetime.t)
    (user_id : string) (user_history : option (list H)) : WorkoutPlan.t :=
  let plan_id := "plan_" ++ substring 0 8 (uuid.hex (uuid.uuid4 rand)) in
  let exercises := [
    PlannedExercise.mk 0 "cable-chest-press" "Cable Chest Press"
      ExerciseType.VITRUVIAN "CHEST"
      [ PlannedSet.new 1 "WARMUP" (Some 15) (Some (10 # 1)%Q) 60;
        PlannedSet.new 2 "STANDARD" (Some 10) (Some (20 # 1)%Q) 60;
        PlannedSet.new 3 "STANDARD" (Some 10) (Some (20 # 1)%Q) 60;
        PlannedSet.new 4 "STANDARD" (Some 8) (Some (45 # 2)%Q) 60 ]
      60
      (Some "Set cable at chest height. Drive elbows together at lockout.")
      (Some "DOUBLE") false;
    PlannedExercise.mk 1 "rest-90" "Rest"
      ExerciseType.REST_TIMER "RECOVERY"
      [ PlannedSet.new 1 "REST" None None 90 ]
      90 None (Some "DOUBLE") false;
    PlannedExercise.mk 2 "cable-shoulder-press" "Cable Shoulder Press"
      ExerciseType.VITRUVIAN "SHOULDERS"
      [ PlannedSet.new 1 "STANDARD" (Some 10) (Some (15 # 1)%Q) 60;
        PlannedSet.new 2 "STANDARD" (Some 10) (Some (15 # 1)%Q) 60;
        PlannedSet.new 3 "STANDARD" (Some 8) (Some (35 # 2)%Q) 60 ]
      60
      (Some "Press vertical. Brace core to protect lumbar.")
      (Some "DOUBLE") false;
    PlannedExercise.mk 3 "rest-60" "Rest"
      ExerciseType.REST_TIMER "RECOVERY"
      [ PlannedSet.new 1 "REST" None None 60 ]
      60 None (Some "DOUBLE") false;
    PlannedExercise.mk 4 "bw-pushup" "Push-Up"
      ExerciseType.BODYWEIGHT "CHEST"
      [ PlannedSet.new 1 "AMRAP" None None 60;
        PlannedSet.new 2 "AMRAP" None None 60 ]
      60
      (Some "Finisher — go to near failure. Control the negative.")
      (Some "DOUBLE") false
  ] in
  WorkoutPlan.mk plan_id user_id now "Upper Push — Day 1" 35 exercises
    (Some "Progressive overload target: +2.5kg on Cable Chest Press if all 4 sets completed at RPE <8.").

(** ** Routes *)

(** Body of [GET /workout/today]; the plan is generated with
    [user_history] left at its default. *)
Definition get_todays_workout (rand : N) (now : datetime.t) (user_id : string)
    : WorkoutPlan.t :=
  generate_workout_plan rand now user_id (@None (list unit)).

(** The route as the framework runs it: the [Depends(get_user_id)]
    dependency is resolved from the [X-User-Id] header first, and the body
    runs only when it returned. *)
Definition GET_workout_today (rand : N) (now : datetime.t)
    (x_user_id : option string) : outcome WorkoutPlan.t :=
  user_id <- get_user_id x_user_id ;;
  Return (get_todays_workout rand now user_id).

(** The JSON object [log_workout_completion] returns. *)
Module CompletionSummary.
Record t : Type := mk {
  status : string;
  user_id : string;
  plan_id : option string;
  sets_logged : Z;
  duration_minutes : Z;
  new_prs : Z;
  message : string
}.
End CompletionSummary.

Definition len {A} (l : list A) : Z := Z.of_nat (List.length l).

Definition fire : string :=
  String (ascii_of_nat 240) (String (ascii_of_nat 159)
    (String (ascii_of_nat 148) (String (ascii_of_nat 165) EmptyString))).

(** Body of [POST /workout/complete]. *)
Definition log_workout_completion (log : WorkoutCompletionLog.t)
    (user_id : string) : outcome CompletionSummary.t :=
  diff <- datetime.sub (WorkoutCompletionLog.completed_at log)
                       (WorkoutCompletionLog.started_at log) ;;
  let duration_minutes := datetime.seconds diff / 60 in
  let total_sets := len (WorkoutCompletionLog.sets log) in
  let prs := filter CompletedSetLog.is_pr (WorkoutCompletionLog.sets log) in
  Return (CompletionSummary.mk
    "logged"
    user_id
    (WorkoutCompletionLog.plan_id log)
    total_sets
    duration_minutes
    (len prs)
    ("Great work. " ++ str total_sets ++ " sets logged. "
     ++ match prs with
        | _ :: _ => fire ++ " " ++ str (len prs) ++ " new PRs!"
        | [] => "Keep pushing."
        end)).

Definition POST_workout_complete (log : WorkoutCompletionLog.t)
    (x_user_id : option string) : outcome CompletionSummary.t :=
  user_id <- get_user_id x_user_id ;;
  log_workout_completion log user_id.

(** [GET /exercises]. *)
Definition get_exercise_library : list ExerciseDefinition.t :=
  HYBRID_EXERCISE_LIBRARY.

Section HybridListing.

(** [upper] is [str.upper], as called in [exercise_type.upper()]. *)
Variable upper : string -> string.

(** [GET /exercises/hybrid?exercise_type=..]; the query parameter is [None]
    when absent.  The two list comprehensions are [filter]. *)
Definition get_hybrid_exercises (exercise_type : option string)
    : list ExerciseDefinition.t :=
  let exercises :=
    filter (fun e => negb (ExerciseDefinition.exercise_type e
                           =? ExerciseType.VITRUVIAN)%string)
           HYBRID_EXERCISE_LIBRARY in
  match exercise_type with
  | Some ty =>
      if truthy ty then
        filter (fun e => (ExerciseDefinition.exercise_type e =? upper ty)%string)
               exercises
      else exercises
  | None => exercises
  end.

End HybridListing.

(** ** What the specification measures *)

Module Elapsed.

(** A [timedelta] as one signed count of microseconds
    ([timedelta._to_microseconds]). *)
Definition total_us (td : datetime.timedelta) : Z :=
  (datetime.days td * 86400 + datetime.seconds td) * 1000000
  + datetime.microseconds td.

(** The instant a timestamp denotes, in microseconds since the start of
    day 0 of the proleptic calendar; the offset of an aware timestamp is
    taken off, a naive one is read as it stands. *)
Definition instant_us (a : datetime.t) : Z :=
  (datetime.toordinal a * 86400
   + datetime.hour a * 3600 + datetime.minute a * 60 + datetime.second a
   - match datetime.tzinfo a with Some off => off | None => 0 end) * 1000000
  + datetime.microsecond a.

(** The elapsed time between [startedAt] and [completedAt]. *)
Definition elapsed_us (started completed : datetime.t) : Z :=
  instant_us completed - instant_us started.

(** The elapsed time in whole minutes, rounded down. *)
Definition whole_minutes (started completed : datetime.t) : Z :=
  elapsed_us started completed / 60000000.

(** Both timestamps naive or both aware: the only pairs Python subtracts
    or orders. *)
Definition comparable (a b : datetime.t) : bool :=
  match datetime.tzinfo a, datetime.tzinfo b with
  | None, None | Some _, Some _ => true
  | _, _ => false
  end.

End Elapsed.

(** The number of sets with [is_pr = true]. *)
Fixpoint count_pr (sets : list CompletedSetLog.t) : Z :=
  match sets with
  | [] => 0
  | s :: rest => (if CompletedSetLog.is_pr s then 1 else 0) + count_pr rest
  end.

(** The text of the acknowledgement, by number of sets and of PRs: the
    sentence on PRs appears when there is at least one. *)
Definition acknowledgement (n_sets n_prs : Z) : string :=
  "Great work. " ++ str n_sets ++ " sets logged. "
  ++ (if 0 <? n_prs then fire ++ " " ++ str n_prs ++ " new PRs!"
      else "Keep pushing.").

(** [l1] is [l2] with some entries left out, the others in their order. *)
Inductive subsequence {A : Type} : list A -> list A -> Prop :=
| subsequence_nil : subsequence [] []
| subsequence_skip x l1 l2 : subsequence l1 l2 -> subsequence l1 (x :: l2)
| subsequence_keep x l1 l2 : subsequence l1 l2 -> subsequence (x :: l1) (x :: l2).

(** The test of the first comprehension of [get_hybrid_exercises]. *)
Definition hybrid (e : ExerciseDefinition.t) : bool :=
  negb (ExerciseDefinition.exercise_type e =? ExerciseType.VITRUVIAN)%string.

(** An exercise id resolves when some catalog entry carries it. *)
Definition resolves (exercise_id : string) : Prop :=
  exists d, In d HYBRID_EXERCISE_LIBRARY /\ ExerciseDefinition.id d = exercise_id.

Definition resolvesb (exercise_id : string) : bool :=
  existsb (fun d => (ExerciseDefinition.id d =? exercise_id)%string)
          HYBRID_EXERCISE_LIBRARY.

(** ** Sample requests *)

Module Sample.

Definition at_ (d h mi : Z) : datetime.t :=
  datetime.mk 2024 1 d h mi 0 0 None.

Definition a_set (n : Z) (pr : bool) : CompletedSetLog.t :=
  CompletedSetLog.mk "bw-pushup" n 12 (0 # 1)%Q None pr.

Definition six_sets : list CompletedSetLog.t :=
  [a_set 1 false; a_set 2 false; a_set 3 true;
   a_set 4 false; a_set 5 false; a_set 6 false].

Definition a_log (started completed : datetime.t) : WorkoutCompletionLog.t :=
  WorkoutCompletionLog.mk (Some "plan_deadbeef") "u1" started completed
                          six_sets None.

(** 10:00 to 10:42 on 2024-01-01. *)
Definition log_42min : WorkoutCompletionLog.t :=
  a_log (at_ 1 10 0) (at_ 1 10 42).

(** 10:00 on 2024-01-01 to 10:42 on 2024-01-02: one day and 42 minutes. *)
Definition log_next_day : WorkoutCompletionLog.t :=
  a_log (at_ 1 10 0) (at_ 2 10 42).

(** Completed two minutes before it started. *)
Definition log_backwards : WorkoutCompletionLog.t :=
  a_log (at_ 1 10 0) (at_ 1 9 58).

(** Two different 16-byte draws that share their first four bytes. *)
Definition rand1 : N := (0xdeadbeef * 2 ^ 96 + 1)%N.
Definition rand2 : N := (0xdeadbeef * 2 ^ 96 + 2)%N.

End Sample.

(** ** Further notions used by the properties of the handlers *)

(** The wall-clock fields of a timestamp as one count of microseconds, its
    offset not applied. *)
Definition wall_us (a : datetime.t) : Z :=
  (datetime.toordinal a * 86400
   + datetime.hour a * 3600 + datetime.minute a * 60 + datetime.second a)
  * 1000000
  + datetime.microsecond a.

(** One day, in microseconds. *)
Definition day_us : Z := 86400 * 1000000.

(** A lower-case hexadecimal digit: [0]-[9] (codes 48-57) or [a]-[f]
    (codes 97-102). *)
Definition is_lower_hex (c : ascii) : bool :=
  let n := N_of_ascii c in
  ((48 <=? n) && (n <=? 57) || (97 <=? n) && (n <=? 102))%N.

(** The [is_pr] flags of a list of sets, in order. *)
Definition pr_flags (sets : list CompletedSetLog.t) : list bool :=
  map CompletedSetLog.is_pr sets.

(** The 401 response of [get_user_id]. *)
Definition unauthorized : exn :=
  HTTPException 401 "X-User-Id header required".

(** The numbers [first], [first + 1], ... ([count] of them). *)
Definition zrange (first : nat) (count : nat) : list Z :=
  map Z.of_nat (seq first count).

Module MoreSamples.

(** 2024-01-01 at [h]:[mi], in the zone [off] seconds east of UTC. *)
Definition aware (h mi off : Z) : datetime.t :=
  datetime.mk 2024 1 1 h mi 0 0 (Some off).

(** Started 10:00 at UTC, completed 12:30 at UTC+2: half an hour later. *)
Definition log_two_zones : WorkoutCompletionLog.t :=
  WorkoutCompletionLog.mk None "u1" (aware 10 0 0) (aware 12 30 7200)
                          Sample.six_sets None.


(** The sets of [Sample.six_sets] with other exercises, repetitions and
    loads, and the same PR flags. *)
Definition other_sets : list CompletedSetLog.t :=
  map (fun s => CompletedSetLog.mk "db-row" (CompletedSetLog.set_number s) 5
                  (45 # 2)%Q (Some 9) (CompletedSetLog.is_pr s))
      Sample.six_sets.

(** A log that differs from [Sample.log_42min] in its [user_id], its
    [notes] and the details of its sets. *)
Definition log_42min_other : WorkoutCompletionLog.t :=
  WorkoutCompletionLog.mk (Some "plan_deadbeef") "someone-else"
    (Sample.at_ 1 10 0) (Sample.at_ 1 10 42) other_sets (Some "felt strong").

(** The catalog entry of the push-up. *)
Definition pushup_entry : ExerciseDefinition.t :=
  ExerciseDefinition.seed "bw-pushup" "Push-Up"
    ExerciseType.BODYWEIGHT "CHEST" "BODYWEIGHT"
    "Rigid plank from head to heel. Elbows 45° from torso.".

End MoreSamples.

(** * Properties *)

(** ** Time differences *)

Section TimeDifferences.

Import datetime Elapsed.

Lemma new_timedelta_total (d s us : Z) :
  total_us (new_timedelta d s us) = (d * 86400 + s) * 1000000 + us.
Proof.
  unfold total_us, new_timedelta; cbn [days seconds microseconds].
  pose proof (Z.div_mod (s + us / 1000000) 86400).
  pose proof (Z.div_mod us 1000000).
  lia.
Qed.

Lemma new_timedelta_normal (d s us : Z) :
  0 <= seconds (new_timedelta d s us) < 86400
  /\ 0 <= microseconds (new_timedelta d s us) < 1000000.
Proof.
  unfold new_timedelta; cbn [seconds microseconds].
  split; apply Z.mod_pos_bound; lia.
Qed.

Lemma td_add_total (a b : timedelta) :
  total_us (td_add a b) = total_us a + total_us b.
Proof. unfold td_add. rewrite new_timedelta_total. unfold total_us. lia. Qed.

Lemma td_sub_total (a b : timedelta) :
  total_us (td_sub a b) = total_us a - total_us b.
Proof. unfold td_sub. rewrite new_timedelta_total. unfold total_us. lia. Qed.

(** A normalised difference carries, in its [seconds] field, the whole
    seconds of the total reduced modulo one day. *)
Lemma seconds_of_total (td : timedelta) :
  0 <= seconds td < 86400 ->
  0 <= microseconds td < 1000000 ->
  seconds td = (total_us td / 1000000) mod 86400.
Proof.
  intros Hs Hus. unfold total_us.
  assert (Hq : ((days td * 86400 + seconds td) * 1000000 + microseconds td)
               / 1000000 = days td * 86400 + seconds td).
  { symmetry. apply Z.div_unique with (r := microseconds td); lia. }
  rewrite Hq.
  apply Z.mod_unique with (q := days td); lia.
Qed.

(** Subtraction returns for every comparable pair, with a normalised
    result whose total is the distance between the two instants. *)
Lemma sub_comparable (a b : t) :
  comparable a b = true ->
  exists td, sub a b = Return td
    /\ total_us td = elapsed_us b a
    /\ 0 <= seconds td < 86400
    /\ 0 <= microseconds td < 1000000.
Proof.
  unfold comparable, sub, elapsed_us, instant_us.
  destruct (tzinfo a) as [oa|], (tzinfo b) as [ob|]; try discriminate; intros _.
  - destruct (Z.eqb_spec oa ob) as [->|Hne].
    + eexists; split; [reflexivity|].
      rewrite new_timedelta_total.
      split; [lia | apply new_timedelta_normal].
    + eexists; split; [reflexivity|].
      rewrite td_sub_total, td_add_total, !new_timedelta_total.
      split; [lia | apply new_timedelta_normal].
  - eexists; split; [reflexivity|].
    rewrite new_timedelta_total.
    split; [lia | apply new_timedelta_normal].
Qed.

(** An ordering test that returns was made on a comparable pair. *)
Lemma cmp_returns_comparable (a b : t) (c : comparison) :
  _cmp a b = Return c -> comparable a b = true.
Proof.
  unfold _cmp, comparable.
  destruct (tzinfo a), (tzinfo b); intros E; try reflexivity; discriminate.
Qed.

Lemma le_returns_comparable (a b : t) (r : bool) :
  le a b = Return r -> comparable a b = true.
Proof.
  unfold le. destruct (_cmp a b) as [c|e] eqn:E; [|discriminate].
  intros _. eapply cmp_returns_comparable; eassumption.
Qed.

Lemma lt_returns_comparable (a b : t) (r : bool) :
  lt a b = Return r -> comparable a b = true.
Proof.
  unfold lt. destruct (_cmp a b) as [c|e] eqn:E; [|discriminate].
  intros _. eapply cmp_returns_comparable; eassumption.
Qed.

Lemma comparable_sym (a b : t) : comparable a b = comparable b a.
Proof. unfold comparable. destruct (tzinfo a), (tzinfo b); reflexivity. Qed.

End TimeDifferences.

(** ** Completion recorder *)

Section CompletionRecorder.

Import WorkoutCompletionLog.

Lemma len_prs (l : list CompletedSetLog.t) :
  len (filter CompletedSetLog.is_pr l) = count_pr l.
Proof.
  unfold len. induction l as [|s l IH]; [reflexivity|].
  cbn [filter count_pr]. destruct (CompletedSetLog.is_pr s).
  - cbn [List.length]. rewrite Nat2Z.inj_succ, IH. lia.
  - rewrite IH. lia.
Qed.

Lemma count_pr_nonneg (l : list CompletedSetLog.t) : 0 <= count_pr l.
Proof.
  induction l as [|s l IH]; cbn [count_pr]; [lia|].
  destruct (CompletedSetLog.is_pr s); lia.
Qed.

Lemma no_prs_iff (l : list CompletedSetLog.t) :
  filter CompletedSetLog.is_pr l = [] <-> count_pr l = 0.
Proof.
  rewrite <- len_prs. unfold len.
  destruct (filter CompletedSetLog.is_pr l); cbn [List.length]; split;
    intros E; try reflexivity; try discriminate; lia.
Qed.

(** On a comparable pair of timestamps the handler returns, and this is
    the summary it returns. *)
Lemma log_workout_completion_summary (log : t) (uid : string) :
  Elapsed.comparable (started_at log) (completed_at log) = true ->
  exists s, log_workout_completion log uid = Return s
    /\ CompletionSummary.status s = "logged"
    /\ CompletionSummary.user_id s = uid
    /\ CompletionSummary.plan_id s = plan_id log
    /\ CompletionSummary.sets_logged s = len (sets log)
    /\ CompletionSummary.new_prs s = count_pr (sets log)
    /\ CompletionSummary.message s
       = acknowledgement (len (sets log)) (count_pr (sets log))
    /\ CompletionSummary.duration_minutes s
       = (Elapsed.elapsed_us (started_at log) (completed_at log) / 1000000)
           mod 86400 / 60.
Proof.
  intros Hc. rewrite comparable_sym in Hc.
  destruct (sub_comparable _ _ Hc) as (td & Hsub & Htot & Hs & Hus).
  unfold log_workout_completion. rewrite Hsub. cbn [bind].
  eexists; split; [reflexivity|].
  cbn [CompletionSummary.status CompletionSummary.user_id
       CompletionSummary.plan_id CompletionSummary.sets_logged
       CompletionSummary.new_prs CompletionSummary.message
       CompletionSummary.duration_minutes].
  repeat split; auto using len_prs.
  - unfold acknowledgement. rewrite len_prs.
    destruct (filter CompletedSetLog.is_pr (sets log)) eqn:E.
    + apply no_prs_iff in E. rewrite E. reflexivity.
    + assert (count_pr (sets log) <> 0) as Hne.
      { intros Z0. apply no_prs_iff in Z0. congruence. }
      pose proof (count_pr_nonneg (sets log)).
      destruct (Z.ltb_spec 0 (count_pr (sets log))); [reflexivity | lia].
  - rewrite <- Htot. f_equal. apply seconds_of_total; assumption.
Qed.

(** For a span of less than one day that does not run backwards, the
    reported duration is the elapsed time in whole minutes. *)
Lemma duration_minutes_within_a_day (log : t) (uid : string) :
  Elapsed.comparable (started_at log) (completed_at log) = true ->
  0 <= Elapsed.elapsed_us (started_at log) (completed_at log)
    < 86400 * 1000000 ->
  exists s, log_workout_completion log uid = Return s
    /\ CompletionSummary.duration_minutes s
       = Elapsed.whole_minutes (started_at log) (completed_at log).
Proof.
  intros Hc Hr.
  destruct (log_workout_completion_summary log uid Hc)
    as (s & Hs & _ & _ & _ & _ & _ & _ & Hd).
  exists s; split; [assumption|]. rewrite Hd. unfold Elapsed.whole_minutes.
  set (e := Elapsed.elapsed_us _ _) in *.
  rewrite Z.mod_small.
  - rewrite Z.div_div by lia. reflexivity.
  - split; [apply Z.div_pos; lia | apply Z.div_lt_upper_bound; lia].
Qed.

End CompletionRecorder.

(** C1 (as the code behaves): the reported duration loses whole days.  For
    the log that starts at 10:00 on 2024-01-01 and completes at 10:42 on the
    next day, [completed_at] is not earlier than [started_at] and the
    elapsed time is 1482 whole minutes, yet the summary that
    [log_workout_completion] returns carries [duration_minutes = 42]: the
    handler reads the [seconds] field of the difference, which leaves its
    [days] out. *)
Theorem C1_duration_drops_whole_days :
  let log := Sample.log_next_day in
  datetime.le (WorkoutCompletionLog.started_at log)
              (WorkoutCompletionLog.completed_at log) = Return true
  /\ Elapsed.whole_minutes (WorkoutCompletionLog.started_at log)
                           (WorkoutCompletionLog.completed_at log) = 1482
  /\ exists s, log_workout_completion log "u1" = Return s
       /\ CompletionSummary.duration_minutes s = 42.
Proof.
  cbv zeta. split; [reflexivity|]. split; [reflexivity|].
  eexists; split; reflexivity.
Qed.

(** C2 (claim as stated fails): it is not the case that every log whose
    [completed_at] is earlier than its [started_at] is rejected with a
    client-error response; the log completed at 09:58 and started at 10:00
    is answered with a summary. *)
Lemma C2_backwards_log_not_rejected :
  ~ (forall (log : WorkoutCompletionLog.t) (uid : string),
       datetime.lt (WorkoutCompletionLog.completed_at log)
                   (WorkoutCompletionLog.started_at log) = Return true ->
       exists code detail,
         400 <= code < 500
         /\ log_workout_completion log uid
            = Raise (HTTPException code detail)).
Proof.
  intros claim.
  destruct (claim Sample.log_backwards "u1" eq_refl)
    as (code & detail & _ & E).
  discriminate E.
Qed.

(** C2 (amended): for every completion log in which [completed_at] is
    earlier than [started_at], the handler raises nothing: it returns a
    summary with status "logged" for the caller, echoing the plan id and
    counting the sets and the PRs of the log. *)
Theorem C2_backwards_log_is_summarised
    (log : WorkoutCompletionLog.t) (uid : string) :
  datetime.lt (WorkoutCompletionLog.completed_at log)
              (WorkoutCompletionLog.started_at log) = Return true ->
  exists s, log_workout_completion log uid = Return s
    /\ CompletionSummary.status s = "logged"
    /\ CompletionSummary.user_id s = uid
    /\ CompletionSummary.plan_id s = WorkoutCompletionLog.plan_id log
    /\ CompletionSummary.sets_logged s = len (WorkoutCompletionLog.sets log)
    /\ CompletionSummary.new_prs s = count_pr (WorkoutCompletionLog.sets log).
Proof.
  intros Hlt. apply lt_returns_comparable in Hlt.
  rewrite comparable_sym in Hlt.
  destruct (log_workout_completion_summary log uid Hlt)
    as (s & Hs & H1 & H2 & H3 & H4 & H5 & _).
  exists s. auto 7.
Qed.

Lemma C2_backwards_log_is_summarised_witness :
  datetime.lt (WorkoutCompletionLog.completed_at Sample.log_backwards)
              (WorkoutCompletionLog.started_at Sample.log_backwards)
    = Return true
  /\ exists s, log_workout_completion Sample.log_backwards "u1" = Return s
    /\ CompletionSummary.status s = "logged"
    /\ CompletionSummary.user_id s = "u1"
    /\ CompletionSummary.plan_id s = Some "plan_deadbeef"
    /\ CompletionSummary.sets_logged s = 6
    /\ CompletionSummary.new_prs s = 1.
Proof.
  split; [reflexivity|].
  exact (C2_backwards_log_is_summarised Sample.log_backwards "u1" eq_refl).
Defined.




(** ** Exercise catalog *)

Section Catalog.

Import ExerciseDefinition.

Variable upper : string -> string.

Lemma hybrid_spec (e : t) :
  hybrid e = true <-> exercise_type e <> ExerciseType.VITRUVIAN.
Proof.
  unfold hybrid. destruct (String.eqb_spec (exercise_type e) ExerciseType.VITRUVIAN);
    cbn; split; intros; congruence.
Qed.

Lemma filter_subsequence {A} (p : A -> bool) (l : list A) :
  subsequence (filter p l) l.
Proof.
  induction l as [|x l IH]; cbn [filter]; [constructor|].
  destruct (p x); constructor; assumption.
Qed.

Lemma subsequence_trans {A} (l1 l2 l3 : list A) :
  subsequence l1 l2 -> subsequence l2 l3 -> subsequence l1 l3.
Proof.
  intros H12 H23. revert l1 H12.
  induction H23 as [|x l2 l3 H23 IH|x l2 l3 H23 IH]; intros l1 H12.
  - assumption.
  - constructor. apply IH. assumption.
  - inversion H12; subst; constructor; apply IH; assumption.
Qed.

Lemma filter_all {A} (p : A -> bool) (l : list A) :
  forallb p l = true -> filter p l = l.
Proof.
  induction l as [|x l IH]; cbn [forallb filter]; [reflexivity|].
  intros E. apply andb_true_iff in E as [Ex El].
  rewrite Ex, IH by assumption. reflexivity.
Qed.

(** What the handler computes, by the truth value of the filter. *)
Lemma get_hybrid_exercises_unfiltered (f : option string) :
  match f with Some ty => truthy ty = false | None => True end ->
  get_hybrid_exercises upper f = filter hybrid HYBRID_EXERCISE_LIBRARY.
Proof.
  unfold get_hybrid_exercises. destruct f as [ty|]; [|reflexivity].
  intros ->. reflexivity.
Qed.

Lemma get_hybrid_exercises_filtered (ty : string) :
  truthy ty = true ->
  get_hybrid_exercises upper (Some ty)
  = filter (fun e => (exercise_type e =? upper ty)%string)
           (filter hybrid HYBRID_EXERCISE_LIBRARY).
Proof. unfold get_hybrid_exercises. intros ->. reflexivity. Qed.

Lemma truthy_spec (s : string) : truthy s = true <-> s <> EmptyString.
Proof.
  unfold truthy. destruct (String.eqb_spec s EmptyString); cbn;
    split; intros; congruence.
Qed.

(** Whatever the filter, the answer is drawn from the hybrid entries of
    the catalog. *)
Lemma get_hybrid_exercises_In (f : option string) (e : t) :
  In e (get_hybrid_exercises upper f) ->
  In e HYBRID_EXERCISE_LIBRARY /\ exercise_type e <> ExerciseType.VITRUVIAN.
Proof.
  destruct f as [ty|]; [destruct (truthy ty) eqn:T|].
  - rewrite get_hybrid_exercises_filtered by assumption.
    intros H. apply filter_In in H as [H _].
    apply filter_In in H as [H1 H2]. apply hybrid_spec in H2. auto.
  - rewrite (get_hybrid_exercises_unfiltered (Some ty)) by assumption.
    intros H. apply filter_In in H as [H1 H2]. apply hybrid_spec in H2. auto.
  - rewrite (get_hybrid_exercises_unfiltered None) by exact I.
    intros H. apply filter_In in H as [H1 H2]. apply hybrid_spec in H2. auto.
Qed.

Lemma library_types_defined :
  Forall (fun e => In (exercise_type e) ExerciseType.values)
         HYBRID_EXERCISE_LIBRARY.
Proof.
  apply Forall_forall. intros e He.
  assert (E : existsb (String.eqb (exercise_type e)) ExerciseType.values = true).
  { revert e He. apply Forall_forall. repeat constructor. }
  apply existsb_exists in E as (v & Hv & E).
  apply String.eqb_eq in E. congruence.
Qed.

Lemma library_all_hybrid : forallb hybrid HYBRID_EXERCISE_LIBRARY = true.
Proof. reflexivity. Qed.

End Catalog.

(** C5: whatever the filter (and with none), [get_hybrid_exercises] returns
    no entry whose type is VITRUVIAN; with no filter it returns exactly the
    catalog entries whose type is not VITRUVIAN, in the order of the
    catalog. *)
Theorem C5_hybrid_listing_excludes_vitruvian (upper : string -> string) :
  (forall f : option string,
     Forall (fun e => ExerciseDefinition.exercise_type e <> ExerciseType.VITRUVIAN)
            (get_hybrid_exercises upper f))
  /\ (forall e,
        In e (get_hybrid_exercises upper None)
        <-> In e get_exercise_library
            /\ ExerciseDefinition.exercise_type e <> ExerciseType.VITRUVIAN)
  /\ subsequence (get_hybrid_exercises upper None) get_exercise_library
  /\ get_hybrid_exercises upper None
     = filter (fun e => negb (ExerciseDefinition.exercise_type e
                              =? ExerciseType.VITRUVIAN)%string)
              get_exercise_library.
Proof.
  split; [|split; [|split]].
  - intros f. apply Forall_forall. intros e He.
    apply get_hybrid_exercises_In in He. tauto.
  - intros e. rewrite (get_hybrid_exercises_unfiltered upper None) by exact I.
    rewrite filter_In, hybrid_spec. reflexivity.
  - rewrite (get_hybrid_exercises_unfiltered upper None) by exact I.
    apply filter_subsequence.
  - reflexivity.
Qed.

(** C7 (claim as stated fails): a filter string that matches no value of the
    enumeration does not always give the empty sequence.  The empty string,
    whose upper-case form is the empty string, is none of the seven values,
    and the handler answers it with the whole catalog, which is not
    empty. *)
Lemma C7_empty_filter_is_no_filter :
  (forall upper : string -> string,
     upper_agrees_on_ascii upper ->
     upper EmptyString = EmptyString
     /\ ~ In (upper EmptyString) ExerciseType.values)
  /\ (forall upper : string -> string,
        get_hybrid_exercises upper (Some EmptyString) = get_exercise_library)
  /\ get_exercise_library <> [].
Proof.
  split; [|split].
  - intros upper Hup. rewrite (Hup EmptyString eq_refl). split; [reflexivity|].
    cbn. intros H. repeat (destruct H as [H|H]; [discriminate H|]). exact H.
  - intros upper. reflexivity.
  - discriminate.
Qed.

(** C7 (amended): for every filter string that is not empty,
    [get_hybrid_exercises] returns exactly the non-VITRUVIAN catalog
    entries whose type equals the filter put in upper case by [str.upper],
    in the order of the catalog; when the upper-cased filter is none of the
    values of the enumeration the answer is the empty sequence, and no
    filter string makes the handler fail. *)
Theorem C7_filter_by_uppercased_type
    (upper : string -> string) (ty : string) :
  ty <> EmptyString ->
  (forall e,
     In e (get_hybrid_exercises upper (Some ty))
     <-> In e get_exercise_library
         /\ ExerciseDefinition.exercise_type e <> ExerciseType.VITRUVIAN
         /\ ExerciseDefinition.exercise_type e = upper ty)
  /\ subsequence (get_hybrid_exercises upper (Some ty)) get_exercise_library
  /\ get_hybrid_exercises upper (Some ty)
     = filter (fun e => (ExerciseDefinition.exercise_type e =? upper ty)%string)
              (get_hybrid_exercises upper None)
  /\ (~ In (upper ty) ExerciseType.values ->
      get_hybrid_exercises upper (Some ty) = []).
Proof.
  intros Hne. apply truthy_spec in Hne.
  rewrite (get_hybrid_exercises_filtered upper ty Hne).
  rewrite (get_hybrid_exercises_unfiltered upper None) by exact I.
  split; [|split; [|split]].
  - intros e. rewrite !filter_In, hybrid_spec, String.eqb_eq. tauto.
  - eapply subsequence_trans; apply filter_subsequence.
  - reflexivity.
  - intros Hunknown.
    destruct (filter _ (filter hybrid _)) as [|e l] eqn:E; [reflexivity|].
    exfalso. apply Hunknown.
    assert (He : In e (e :: l)) by (left; reflexivity).
    rewrite <- E in He. rewrite !filter_In, String.eqb_eq in He.
    destruct He as [[Hin _] <-].
    exact (proj1 (Forall_forall _ _) library_types_defined e Hin).
Qed.

Lemma C7_filter_by_uppercased_type_witness :
  map ExerciseDefinition.id (get_hybrid_exercises ascii_upper (Some "trx"))
  = ["trx-row"; "trx-chest-press"; "trx-bicep-curl"; "trx-squat"; "trx-plank"]
  /\ get_hybrid_exercises ascii_upper (Some "trx")
     = filter (fun e => (ExerciseDefinition.exercise_type e =? "TRX")%string)
              (get_hybrid_exercises ascii_upper None).
Proof.
  split; [reflexivity|].
  assert (Hne : "trx" <> EmptyString) by discriminate.
  exact (proj1 (proj2 (proj2
           (C7_filter_by_uppercased_type ascii_upper "trx" Hne)))).
Defined.

(** C10: the seeded catalog has no entry whose type is VITRUVIAN, so
    [get_hybrid_exercises] with no filter returns the whole catalog: the
    same sequence, in the same order, as [get_exercise_library]. *)
Theorem C10_unfiltered_hybrid_listing_is_whole_catalog
    (upper : string -> string) :
  Forall (fun e => ExerciseDefinition.exercise_type e <> ExerciseType.VITRUVIAN)
         HYBRID_EXERCISE_LIBRARY
  /\ get_hybrid_exercises upper None = get_exercise_library.
Proof.
  split.
  - apply Forall_forall. intros e He. apply hybrid_spec.
    exact (proj1 (forallb_forall _ _) library_all_hybrid e He).
  - rewrite (get_hybrid_exercises_unfiltered upper None) by exact I.
    apply filter_all, library_all_hybrid.
Qed.

(** ** Plan identifiers *)

Section PlanIdentifiers.

Import uuid.
Local Open Scope N_scope.

(** Setting the version and variant bits leaves the top 32 bits alone. *)
Lemma uuid4_top_bits (rand : N) : uuid4 rand / 2 ^ 96 = rand / 2 ^ 96.
Proof.
  unfold uuid4. rewrite <- !N.shiftr_div_pow2.
  rewrite !N.shiftr_lor, !N.shiftr_ldiff, !N.shiftr_lor, !N.shiftr_ldiff.
  change (N.shiftr (N.shiftl 4 76) 96) with 0.
  change (N.shiftr (N.shiftl 0xf000 64) 96) with 0.
  change (N.shiftr (N.shiftl 0x8000 48) 96) with 0.
  change (N.shiftr (N.shiftl 0xc000 48) 96) with 0.
  rewrite !N.lor_0_r, !N.ldiff_0_r. reflexivity.
Qed.

Lemma hex_digit_inj (a b : N) :
  a < 16 -> b < 16 -> hex_digit a = hex_digit b -> a = b.
Proof.
  intros Ha Hb E.
  assert (Hall : forall x, x < 16 ->
            N_of_ascii (hex_digit x) = if x <? 10 then 48 + x else 87 + x).
  { intros x Hx. unfold hex_digit.
    destruct (N.ltb_spec x 10); apply N_ascii_embedding; lia. }
  apply (f_equal N_of_ascii) in E. rewrite !Hall in E by assumption.
  revert E. destruct (N.ltb_spec a 10), (N.ltb_spec b 10); lia.
Qed.

(** The [k] digits determine the number modulo [16^k]. *)
Lemma hex_fixed_inj (k : nat) (n m : N) :
  hex_fixed k n = hex_fixed k m <->
  n mod 16 ^ N.of_nat k = m mod 16 ^ N.of_nat k.
Proof.
  induction k as [|k IH].
  - cbn. rewrite !N.mod_1_r. tauto.
  - cbn [hex_fixed]. rewrite Nat2N.inj_succ, N.pow_succ_r'.
    rewrite (N.mul_comm 16).
    rewrite !N.Div0.mod_mul_r.
    assert (P : 0 < 16 ^ N.of_nat k) by (apply N.neq_0_lt_0, N.pow_nonzero; lia).
    pose proof (N.mod_lt n (16 ^ N.of_nat k)) as Bn.
    pose proof (N.mod_lt m (16 ^ N.of_nat k)) as Bm.
    pose proof (N.mod_lt (n / 16 ^ N.of_nat k) 16) as Dn.
    pose proof (N.mod_lt (m / 16 ^ N.of_nat k) 16) as Dm.
    split.
    + intros E. injection E as Ed Et. apply IH in Et.
      apply hex_digit_inj in Ed; [|lia|lia]. rewrite Ed, Et. reflexivity.
    + intros E.
      set (P16 := 16 ^ N.of_nat k) in *.
      assert (Hm : forall a x, a < P16 -> (a + P16 * x) mod P16 = a).
      { intros a x Ha. symmetry. apply N.mod_unique with (q := x); lia. }
      assert (Hd : forall a x, a < P16 -> (a + P16 * x) / P16 = x).
      { intros a x Ha. symmetry. apply N.div_unique with (r := a); lia. }
      pose proof (f_equal (fun q => q mod P16) E) as E1.
      pose proof (f_equal (fun q => q / P16) E) as E2.
      cbv beta in E1, E2.
      rewrite !Hm in E1 by lia. rewrite !Hd in E2 by lia.
      apply IH in E1. rewrite E1, E2. reflexivity.
Qed.

(** The first [k] of [k + j] digits are the digits of the number shifted
    right by [j] hexadecimal places. *)
Lemma hex_fixed_prefix (k j : nat) (n : N) :
  substring 0 k (hex_fixed (k + j) n) = hex_fixed k (n / 16 ^ N.of_nat j).
Proof.
  induction k as [|k IH].
  - destruct (hex_fixed (0 + j) n); reflexivity.
  - cbn [Nat.add hex_fixed substring]. rewrite IH. f_equal. f_equal.
    rewrite N.Div0.div_div, <- N.pow_add_r, Nat2N.inj_add.
    rewrite (N.add_comm (N.of_nat j)). reflexivity.
Qed.

Lemma plan_id_digits {H : Type} (rand : N) (now : datetime.t)
    (uid : string) (history : option (list H)) :
  WorkoutPlan.plan_id (generate_workout_plan rand now uid history)
  = ("plan_" ++ hex_fixed 8 (rand / 2 ^ 96))%string.
Proof.
  unfold generate_workout_plan; cbn [WorkoutPlan.plan_id].
  unfold hex. change 32%nat with (8 + 24)%nat.
  rewrite hex_fixed_prefix.
  change (16 ^ N.of_nat 24) with (2 ^ 96).
  rewrite uuid4_top_bits. reflexivity.
Qed.

Lemma append_inj_l (p a b : string) :
  (p ++ a)%string = (p ++ b)%string -> a = b.
Proof.
  induction p as [|c p IH]; cbn [append]; intros E; [exact E|].
  injection E as E. apply IH, E.
Qed.

End PlanIdentifiers.

(** C8 (claim as stated fails): two calls can return the same [plan_id].
    The two draws [Sample.rand1] and [Sample.rand2] are different 16-byte
    values and give different UUIDs, yet both calls name their plan
    "plan_deadbeef". *)
Lemma C8_plan_ids_can_collide :
  ~ (forall (rand1 rand2 : N) (now1 now2 : datetime.t) (uid1 uid2 : string)
            (h1 h2 : option (list unit)),
       (rand1 < 2 ^ 128)%N -> (rand2 < 2 ^ 128)%N ->
       uuid.uuid4 rand1 <> uuid.uuid4 rand2 ->
       WorkoutPlan.plan_id (generate_workout_plan rand1 now1 uid1 h1)
       <> WorkoutPlan.plan_id (generate_workout_plan rand2 now2 uid2 h2)).
Proof.
  intros claim.
  apply (claim Sample.rand1 Sample.rand2
               (Sample.at_ 1 10 0) (Sample.at_ 1 10 42) "u1" "u2" None None).
  - reflexivity.
  - reflexivity.
  - discriminate.
  - reflexivity.
Qed.

(** C8 (amended): [plan_id] is "plan_" followed by the first eight
    hexadecimal digits of a random UUID, so the plans of two calls carry
    different ids exactly when the random draws of the two calls differ in
    their first four bytes; [generated_at] is the clock reading of the
    call. *)
Theorem C8_plan_id_is_random_prefix
    {H1 H2 : Type}
    (rand1 rand2 : N) (now1 now2 : datetime.t) (uid1 uid2 : string)
    (h1 : option (list H1)) (h2 : option (list H2)) :
  (rand1 < 2 ^ 128)%N -> (rand2 < 2 ^ 128)%N ->
  let p1 := generate_workout_plan rand1 now1 uid1 h1 in
  let p2 := generate_workout_plan rand2 now2 uid2 h2 in
  (WorkoutPlan.plan_id p1 <> WorkoutPlan.plan_id p2
   <-> (rand1 / 2 ^ 96 <> rand2 / 2 ^ 96)%N)
  /\ WorkoutPlan.plan_id p1
     = "plan_" ++ uuid.hex_fixed 8 (rand1 / 2 ^ 96)%N
  /\ WorkoutPlan.generated_at p1 = now1
  /\ WorkoutPlan.generated_at p2 = now2.
Proof.
  intros B1 B2 p1 p2. subst p1 p2. rewrite !plan_id_digits.
  split; [|repeat split].
  assert (S1 : (rand1 / 2 ^ 96 < 16 ^ N.of_nat 8)%N)
    by (apply N.Div0.div_lt_upper_bound; exact B1).
  assert (S2 : (rand2 / 2 ^ 96 < 16 ^ N.of_nat 8)%N)
    by (apply N.Div0.div_lt_upper_bound; exact B2).
  assert (E : "plan_" ++ uuid.hex_fixed 8 (rand1 / 2 ^ 96)%N
              = "plan_" ++ uuid.hex_fixed 8 (rand2 / 2 ^ 96)%N
              <-> (rand1 / 2 ^ 96 = rand2 / 2 ^ 96)%N).
  { rewrite <- (N.mod_small _ _ S1) at 2. rewrite <- (N.mod_small _ _ S2) at 2.
    rewrite <- hex_fixed_inj. split.
    - apply append_inj_l.
    - intros ->. reflexivity. }
  rewrite E. reflexivity.
Qed.

Lemma C8_plan_id_is_random_prefix_witness :
  WorkoutPlan.plan_id
    (generate_workout_plan Sample.rand1 (Sample.at_ 1 10 0) "u1" (@None (list unit)))
  <> WorkoutPlan.plan_id
       (generate_workout_plan (Sample.rand2 + 2 ^ 96) (Sample.at_ 1 10 42) "u2"
                              (@None (list unit)))
  /\ WorkoutPlan.plan_id
       (generate_workout_plan Sample.rand1 (Sample.at_ 1 10 0) "u1"
                              (@None (list unit)))
     = "plan_deadbeef".
Proof.
  assert (B1 : (Sample.rand1 < 2 ^ 128)%N) by reflexivity.
  assert (B2 : (Sample.rand2 + 2 ^ 96 < 2 ^ 128)%N) by reflexivity.
  pose proof (C8_plan_id_is_random_prefix Sample.rand1 (Sample.rand2 + 2 ^ 96)
                (Sample.at_ 1 10 0) (Sample.at_ 1 10 42) "u1" "u2"
                (@None (list unit)) (@None (list unit))
                B1 B2) as (Hiff & Hid & _ & _).
  split.
  - apply Hiff. intros E. vm_compute in E. discriminate E.
  - exact Hid.
Defined.

(** ** Plan generator *)

Lemma resolvesb_spec (exercise_id : string) :
  resolvesb exercise_id = true <-> resolves exercise_id.
Proof.
  unfold resolvesb, resolves. rewrite existsb_exists.
  split; intros (d & Hd & E); exists d; split; try assumption;
    apply String.eqb_eq; assumption.
Qed.

(** The five planned exercises do not depend on any argument of the call. *)
Lemma exercises_fixed {H1 H2 : Type}
    (rand1 rand2 : N) (now1 now2 : datetime.t) (uid1 uid2 : string)
    (h1 : option (list H1)) (h2 : option (list H2)) :
  WorkoutPlan.exercises (generate_workout_plan rand1 now1 uid1 h1)
  = WorkoutPlan.exercises (generate_workout_plan rand2 now2 uid2 h2).
Proof. reflexivity. Qed.

(** C3 (as the code behaves): every generated plan names two exercises
    that the catalog does not hold.  Whatever the user and the history, the
    plan's first and third exercises are the VITRUVIAN exercises
    "cable-chest-press" and "cable-shoulder-press", and neither id is the id
    of a catalog entry, so the ids of a plan do not all resolve. *)
Theorem C3_cable_ids_missing_from_catalog
    {H : Type} (rand : N) (now : datetime.t) (uid : string)
    (history : option (list H)) :
  let exercises :=
    WorkoutPlan.exercises (generate_workout_plan rand now uid history) in
  let id_and_type e :=
    (PlannedExercise.exercise_id e, PlannedExercise.exercise_type e) in
  nth_error (map id_and_type exercises) 0
  = Some ("cable-chest-press", ExerciseType.VITRUVIAN)
  /\ nth_error (map id_and_type exercises) 2
     = Some ("cable-shoulder-press", ExerciseType.VITRUVIAN)
  /\ ~ resolves "cable-chest-press"
  /\ ~ resolves "cable-shoulder-press"
  /\ ~ Forall (fun e => resolves (PlannedExercise.exercise_id e)) exercises.
Proof.
  cbv zeta.
  assert (N1 : ~ resolves "cable-chest-press")
    by (intros R; apply resolvesb_spec in R; discriminate R).
  assert (N2 : ~ resolves "cable-shoulder-press")
    by (intros R; apply resolvesb_spec in R; discriminate R).
  split; [reflexivity|]. split; [reflexivity|].
  split; [exact N1|]. split; [exact N2|].
  intros All. inversion All as [|e l Hhead _]; subst.
  exact (N1 Hhead).
Qed.

(** C4: for every user id and every history (none included), the plan
    holds the same five exercises: a VITRUVIAN cable chest press, a rest of
    90 seconds, a VITRUVIAN cable shoulder press, a rest of 60 seconds and a
    BODYWEIGHT push-up whose sets are all AMRAP with no target reps; ids
    and order are the same whatever the arguments of the call. *)
Theorem C4_fixed_five_exercise_plan
    {H : Type} (rand : N) (now : datetime.t) (uid : string)
    (history : option (list H)) :
  let plan := generate_workout_plan rand now uid history in
  let exercises := WorkoutPlan.exercises plan in
  map PlannedExercise.exercise_id exercises
  = ["cable-chest-press"; "rest-90"; "cable-shoulder-press"; "rest-60";
     "bw-pushup"]
  /\ map PlannedExercise.exercise_name exercises
     = ["Cable Chest Press"; "Rest"; "Cable Shoulder Press"; "Rest"; "Push-Up"]
  /\ map PlannedExercise.exercise_type exercises
     = [ExerciseType.VITRUVIAN; ExerciseType.REST_TIMER;
        ExerciseType.VITRUVIAN; ExerciseType.REST_TIMER;
        ExerciseType.BODYWEIGHT]
  /\ map PlannedExercise.order_index exercises = [0; 1; 2; 3; 4]
  /\ map PlannedExercise.rest_seconds exercises = [60; 90; 60; 60; 60]
  /\ (forall e, nth_error exercises 4 = Some e ->
        PlannedExercise.sets e <> []
        /\ Forall (fun s => PlannedSet.set_type s = "AMRAP"
                            /\ PlannedSet.target_reps s = None)
                  (PlannedExercise.sets e))
  /\ WorkoutPlan.user_id plan = uid
  /\ (forall (H' : Type) rand' now' uid' (history' : option (list H')),
        WorkoutPlan.exercises (generate_workout_plan rand' now' uid' history')
        = exercises).
Proof.
  cbv zeta. do 5 (split; [reflexivity|]).
  split; [|split; [reflexivity|]].
  - intros e E. cbn in E. injection E as <-.
    split; [discriminate|]. repeat constructor.
  - intros. apply exercises_fixed.
Qed.

(** ** Caller identity *)

(** C9 (claim as stated fails): a header that is present does not always
    give an identity; a header with an empty value is refused like a missing
    one. *)
Lemma C9_empty_header_is_refused :
  ~ (forall value : string, exists uid, get_user_id (Some value) = Return uid).
Proof.
  intros claim. destruct (claim EmptyString) as (uid & E). discriminate E.
Qed.

(** C9 (amended): a request to [GET /workout/today] without the identity
    header is refused with status 401 and no plan is returned; with the
    header present and its value not empty, the identity is that value and
    the route returns the plan generated for it. *)
Theorem C9_identity_header_required
    (rand : N) (now : datetime.t) (value : string) :
  value <> EmptyString ->
  GET_workout_today rand now None
  = Raise (HTTPException 401 "X-User-Id header required")
  /\ get_user_id (Some value) = Return value
  /\ GET_workout_today rand now (Some value)
     = Return (generate_workout_plan rand now value (@None (list unit))).
Proof.
  intros Hne. split; [reflexivity|].
  assert (E : get_user_id (Some value) = Return value).
  { unfold get_user_id.
    destruct (String.eqb_spec value EmptyString); [contradiction | reflexivity]. }
  split; [exact E|].
  unfold GET_workout_today. rewrite E. reflexivity.
Qed.

Lemma C9_identity_header_required_witness :
  GET_workout_today 0 (Sample.at_ 1 10 0) None
  = Raise (HTTPException 401 "X-User-Id header required")
  /\ get_user_id (Some "u1") = Return "u1".
Proof.
  assert (Hne : "u1" <> EmptyString) by discriminate.
  destruct (C9_identity_header_required 0 (Sample.at_ 1 10 0) "u1" Hne)
    as (Hmissing & Hpresent & _).
  split; assumption.
Defined.

(** * Further properties of the handlers *)

(** ** The calendar behind timestamp ordering *)

Section Calendar.

Import datetime Elapsed.

Lemma valid_bounds (a : t) :
  valid a = true ->
  1 <= year a <= 9999 /\ 1 <= month a <= 12
  /\ 1 <= day a <= _days_in_month (year a) (month a)
  /\ 0 <= hour a <= 23 /\ 0 <= minute a <= 59 /\ 0 <= second a <= 59
  /\ 0 <= microsecond a <= 999999.
Proof.
  unfold valid. rewrite !andb_true_iff, !Z.leb_le. tauto.
Qed.

Lemma days_before_year_succ (y : Z) :
  _days_before_year (y + 1)
  = _days_before_year y + 365 + (if _is_leap y then 1 else 0).
Proof.
  unfold _days_before_year, _is_leap. cbv zeta.
  replace (y + 1 - 1) with y by lia.
  destruct (Z.eqb_spec (y mod 4) 0), (Z.eqb_spec (y mod 100) 0),
    (Z.eqb_spec (y mod 400) 0); cbn [negb andb orb];
    Z.div_mod_to_equations; lia.
Qed.

Lemma days_before_year_mono (y1 y2 : Z) :
  y1 < y2 -> _days_before_year (y1 + 1) <= _days_before_year y2.
Proof.
  intros Hlt. unfold _days_before_year. cbv zeta.
  Z.div_mod_to_equations; lia.
Qed.

(** Reads the month tables at a known month. *)
Ltac month_tables :=
  repeat match goal with
         | |- context [nth (Z.to_nat ?e) ?l ?d] =>
             let v := eval vm_compute in (nth (Z.to_nat e) l d) in
             change (nth (Z.to_nat e) l d) with v
         end;
  cbn -[Z.add Z.le Z.lt].

(** The day of the year of a valid date lies within the year. *)
Lemma day_of_year_range (y m d : Z) :
  1 <= m <= 12 -> 1 <= d <= _days_in_month y m ->
  1 <= _days_before_month y m + d <= 365 + (if _is_leap y then 1 else 0).
Proof.
  intros Hm Hd.
  assert (M : m = 1 \/ m = 2 \/ m = 3 \/ m = 4 \/ m = 5 \/ m = 6 \/ m = 7
              \/ m = 8 \/ m = 9 \/ m = 10 \/ m = 11 \/ m = 12) by lia.
  unfold _days_before_month, _days_in_month in *. revert Hd.
  destruct (_is_leap y);
    repeat (destruct M as [->|M]; [month_tables; lia|]); subst;
    month_tables; lia.
Qed.

(** Within one year a later month starts after the earlier month ends. *)
Lemma month_order (y m1 d1 m2 d2 : Z) :
  1 <= m1 -> m1 < m2 -> m2 <= 12 ->
  d1 <= _days_in_month y m1 -> 1 <= d2 ->
  _days_before_month y m1 + d1 < _days_before_month y m2 + d2.
Proof.
  intros L1 L12 L2 Hd1 Hd2.
  assert (S : _days_before_month y m1 + _days_in_month y m1
              <= _days_before_month y m2); [|lia].
  clear Hd1 Hd2 d1 d2.
  assert (M1 : m1 = 1 \/ m1 = 2 \/ m1 = 3 \/ m1 = 4 \/ m1 = 5 \/ m1 = 6
               \/ m1 = 7 \/ m1 = 8 \/ m1 = 9 \/ m1 = 10 \/ m1 = 11) by lia.
  assert (M2 : m2 = 2 \/ m2 = 3 \/ m2 = 4 \/ m2 = 5 \/ m2 = 6 \/ m2 = 7
               \/ m2 = 8 \/ m2 = 9 \/ m2 = 10 \/ m2 = 11 \/ m2 = 12) by lia.
  unfold _days_before_month, _days_in_month.
  destruct (_is_leap y);
    repeat (destruct M1 as [->|M1]); subst;
    repeat (destruct M2 as [->|M2]); subst; try lia; month_tables; lia.
Qed.

Lemma ordinal_order (a b : t) :
  valid a = true -> valid b = true ->
  (year a < year b -> toordinal a < toordinal b)
  /\ (year a = year b -> month a < month b -> toordinal a < toordinal b)
  /\ (year a = year b -> month a = month b ->
      toordinal a - toordinal b = day a - day b).
Proof.
  intros Va Vb.
  apply valid_bounds in Va as (Ya & Ma & Da & _).
  apply valid_bounds in Vb as (Yb & Mb & Db & _).
  unfold toordinal. split; [|split].
  - intros Hy.
    pose proof (day_of_year_range _ _ _ Ma Da).
    pose proof (day_of_year_range _ _ _ Mb Db).
    pose proof (days_before_year_succ (year a)).
    pose proof (days_before_year_mono _ _ Hy). lia.
  - intros Hy Hm. rewrite Hy in *.
    pose proof (month_order (year b) (month a) (day a) (month b) (day b)). lia.
  - intros -> ->. lia.
Qed.

(** Comparing the fields of two valid timestamps in order is comparing
    their wall-clock readings. *)
Lemma tuple_cmp_fields (a b : t) :
  valid a = true -> valid b = true ->
  tuple_cmp (fields a) (fields b) = (wall_us a ?= wall_us b).
Proof.
  intros Va Vb.
  destruct (ordinal_order a b Va Vb) as (Oy & Om & Od).
  destruct (ordinal_order b a Vb Va) as (Oy' & Om' & _).
  apply valid_bounds in Va as (_ & _ & _ & Ha & Mia & Sa & Ua).
  apply valid_bounds in Vb as (_ & _ & _ & Hb & Mib & Sb & Ub).
  unfold fields, wall_us. cbn [tuple_cmp].
  repeat match goal with
         | |- context [?x ?= ?y] =>
             lazymatch x with
             | context [toordinal] => fail
             | _ => destruct (Z.compare_spec x y)
             end
         end;
    symmetry;
    first [ apply Z.compare_eq_iff; lia
          | apply Z.compare_lt_iff; lia
          | apply Z.compare_gt_iff; lia ].
Qed.

Lemma instant_wall (a : t) :
  instant_us a
  = wall_us a - match tzinfo a with Some off => off | None => 0 end * 1000000.
Proof. unfold instant_us, wall_us. lia. Qed.

Lemma compare_shift (x y k : Z) : (x - k ?= y - k) = (x ?= y).
Proof.
  destruct (Z.compare_spec x y), (Z.compare_spec (x - k) (y - k));
    try reflexivity; lia.
Qed.

(** On valid timestamps the ordering [_cmp] computes is the ordering of the
    instants they denote. *)
Lemma cmp_instants (a b : t) :
  valid a = true -> valid b = true -> comparable a b = true ->
  _cmp a b = Return (instant_us a ?= instant_us b).
Proof.
  intros Va Vb Hc.
  pose proof (tuple_cmp_fields a b Va Vb) as Hf.
  pose proof (sub_comparable a b Hc) as (td & Hsub & Htot & Hs & Hus).
  unfold elapsed_us in Htot. revert Htot.
  rewrite !instant_wall. unfold _cmp. unfold comparable in Hc.
  destruct (tzinfo a) as [oa|] eqn:Ta, (tzinfo b) as [ob|] eqn:Tb;
    try discriminate; intros Htot.
  - destruct (Z.eqb_spec oa ob) as [->|Hne].
    + rewrite compare_shift. f_equal. exact Hf.
    + rewrite Hsub. cbn [bind]. clear Hsub Hf.
      unfold total_us in Htot. revert Htot.
      generalize (wall_us a - oa * 1000000), (wall_us b - ob * 1000000).
      intros x y Htot.
      destruct td as [dd ss uu]; cbn [days seconds microseconds] in *.
      destruct (Z.ltb_spec dd 0).
      * f_equal. symmetry. apply Z.compare_lt_iff. lia.
      * destruct (Z.eqb_spec dd 0), (Z.eqb_spec ss 0), (Z.eqb_spec uu 0);
          cbn [andb]; f_equal; symmetry;
          first [ apply Z.compare_eq_iff; lia | apply Z.compare_gt_iff; lia ].
  - rewrite compare_shift. f_equal. exact Hf.
Qed.

Lemma le_instants (a b : t) :
  valid a = true -> valid b = true ->
  le a b = Return true
  <-> comparable a b = true /\ instant_us a <= instant_us b.
Proof.
  intros Va Vb. split.
  - intros Hle. pose proof (le_returns_comparable _ _ _ Hle) as Hc.
    split; [exact Hc|]. revert Hle. unfold le.
    rewrite (cmp_instants a b Va Vb Hc). cbn [bind].
    destruct (Z.compare_spec (instant_us a) (instant_us b)); intros E;
      try lia; discriminate E.
  - intros [Hc Hle]. unfold le.
    rewrite (cmp_instants a b Va Vb Hc). cbn [bind].
    destruct (Z.compare_spec (instant_us a) (instant_us b));
      try reflexivity; lia.
Qed.

Lemma lt_instants (a b : t) :
  valid a = true -> valid b = true ->
  lt a b = Return true
  <-> comparable a b = true /\ instant_us a < instant_us b.
Proof.
  intros Va Vb. split.
  - intros Hlt. pose proof (lt_returns_comparable _ _ _ Hlt) as Hc.
    split; [exact Hc|]. revert Hlt. unfold lt.
    rewrite (cmp_instants a b Va Vb Hc). cbn [bind].
    destruct (Z.compare_spec (instant_us a) (instant_us b)); intros E;
      try lia; discriminate E.
  - intros [Hc Hlt]. unfold lt.
    rewrite (cmp_instants a b Va Vb Hc). cbn [bind].
    destruct (Z.compare_spec (instant_us a) (instant_us b));
      try reflexivity; lia.
Qed.

End Calendar.

(** ** Completion recorder: errors, duration and counts *)

Section RecorderBehaviour.

Import WorkoutCompletionLog.

Lemma sub_not_comparable (a b : datetime.t) :
  Elapsed.comparable a b = false ->
  datetime.sub a b = Raise (TypeError "can't subtract offset-naive and offset-aware datetimes").
Proof.
  unfold Elapsed.comparable, datetime.sub.
  destruct (datetime.tzinfo a), (datetime.tzinfo b);
    intros E; try discriminate E; reflexivity.
Qed.

Lemma completion_not_comparable (log : t) (uid : string) :
  Elapsed.comparable (started_at log) (completed_at log) = false ->
  log_workout_completion log uid
  = Raise (TypeError "can't subtract offset-naive and offset-aware datetimes").
Proof.
  intros Hc. rewrite comparable_sym in Hc.
  unfold log_workout_completion. rewrite (sub_not_comparable _ _ Hc).
  reflexivity.
Qed.

Lemma completion_returns_comparable (log : t) (uid : string)
    (s : CompletionSummary.t) :
  log_workout_completion log uid = Return s ->
  Elapsed.comparable (started_at log) (completed_at log) = true.
Proof.
  intros E.
  destruct (Elapsed.comparable (started_at log) (completed_at log)) eqn:Hc;
    [reflexivity|].
  rewrite (completion_not_comparable log uid Hc) in E. discriminate E.
Qed.

(** The fields of a returned summary, read back from the log. *)
Lemma completion_returns_summary (log : t) (uid : string)
    (s : CompletionSummary.t) :
  log_workout_completion log uid = Return s ->
  CompletionSummary.status s = "logged"
  /\ CompletionSummary.user_id s = uid
  /\ CompletionSummary.plan_id s = plan_id log
  /\ CompletionSummary.sets_logged s = len (sets log)
  /\ CompletionSummary.new_prs s = count_pr (sets log)
  /\ CompletionSummary.message s
     = acknowledgement (len (sets log)) (count_pr (sets log))
  /\ CompletionSummary.duration_minutes s
     = (Elapsed.elapsed_us (started_at log) (completed_at log) / 1000000)
         mod 86400 / 60.
Proof.
  intros E. pose proof (completion_returns_comparable log uid s E) as Hc.
  destruct (log_workout_completion_summary log uid Hc) as (s' & Hs' & Hall).
  rewrite E in Hs'. injection Hs' as <-. exact Hall.
Qed.

Lemma count_pr_le_len (l : list CompletedSetLog.t) : count_pr l <= len l.
Proof.
  unfold len. induction l as [|x l IH]; cbn [count_pr List.length]; [lia|].
  rewrite Nat2Z.inj_succ. destruct (CompletedSetLog.is_pr x); lia.
Qed.

Lemma pr_flags_counts (l1 l2 : list CompletedSetLog.t) :
  pr_flags l1 = pr_flags l2 ->
  len l1 = len l2 /\ count_pr l1 = count_pr l2.
Proof.
  unfold pr_flags, len. revert l2.
  induction l1 as [|x l1 IH]; intros [|y l2] E; try discriminate E.
  - split; reflexivity.
  - cbn [map] in E. injection E as Exy E. destruct (IH l2 E) as [L C].
    cbn [List.length count_pr]. rewrite Exy, C, !Nat2Z.inj_succ, L.
    split; reflexivity.
Qed.

(** X1: the handler raises exactly when one timestamp is naive and the other
    aware; the exception is the [TypeError] of the subtraction, not an
    [HTTPException], and every other log is answered with a summary. *)
Theorem completion_raises_exactly_on_mixed_timestamps
    (log : t) (uid : string) :
  ((exists s, log_workout_completion log uid = Return s)
   <-> Elapsed.comparable (started_at log) (completed_at log) = true)
  /\ (log_workout_completion log uid
        = Raise (TypeError "can't subtract offset-naive and offset-aware datetimes")
      <-> Elapsed.comparable (started_at log) (completed_at log) = false).
Proof.
  split; split.
  - intros [s E]. exact (completion_returns_comparable log uid s E).
  - intros Hc.
    destruct (log_workout_completion_summary log uid Hc) as (s & E & _).
    exists s. exact E.
  - intros E.
    destruct (Elapsed.comparable (started_at log) (completed_at log)) eqn:Hc;
      [|reflexivity].
    destruct (log_workout_completion_summary log uid Hc) as (s & E' & _).
    rewrite E in E'. discriminate E'.
  - apply completion_not_comparable.
Qed.

(** The reported duration is the elapsed whole minutes modulo 1440. *)
Lemma duration_minutes_modulo (log : t) (uid : string)
    (s : CompletionSummary.t) :
  log_workout_completion log uid = Return s ->
  CompletionSummary.duration_minutes s
  = Elapsed.whole_minutes (started_at log) (completed_at log) mod 1440.
Proof.
  intros E.
  destruct (completion_returns_summary log uid s E)
    as (_ & _ & _ & _ & _ & _ & Hd).
  rewrite Hd. unfold Elapsed.whole_minutes.
  set (e := Elapsed.elapsed_us _ _).
  change 60000000 with (1000000 * 60). rewrite <- Z.div_div by lia.
  set (q := e / 1000000).
  change 86400 with (60 * 1440).
  rewrite Z.rem_mul_r by lia.
  rewrite (Z.mul_comm 60), Z.div_add by lia.
  rewrite (Z.div_small (q mod 60) 60) by (apply Z.mod_pos_bound; lia).
  reflexivity.
Qed.

(** X2: whatever the two timestamps, a reported duration lies between 0 and
    1439 minutes: it is the elapsed time in whole minutes reduced modulo
    1440, the minutes of one day.  It is never negative, also for a log
    that completes before it starts. *)
Theorem duration_minutes_is_below_one_day
    (log : t) (uid : string) (s : CompletionSummary.t) :
  log_workout_completion log uid = Return s ->
  0 <= CompletionSummary.duration_minutes s <= 1439
  /\ CompletionSummary.duration_minutes s
     = Elapsed.whole_minutes (started_at log) (completed_at log) mod 1440.
Proof.
  intros E. pose proof (duration_minutes_modulo log uid s E) as F.
  split; [|exact F]. rewrite F.
  pose proof (Z.mod_pos_bound
                (Elapsed.whole_minutes (started_at log) (completed_at log))
                1440 ltac:(lia)).
  lia.
Qed.

Lemma duration_minutes_is_below_one_day_witness :
  exists s, log_workout_completion Sample.log_backwards "u1" = Return s
    /\ 0 <= CompletionSummary.duration_minutes s <= 1439
    /\ CompletionSummary.duration_minutes s = 1438.
Proof.
  eexists. split; [reflexivity|]. split.
  - exact (proj1 (duration_minutes_is_below_one_day
                    Sample.log_backwards "u1" _ eq_refl)).
  - reflexivity.
Defined.

(** X3: for two valid timestamps that Python orders as
    [started_at <= completed_at] and that lie less than one day apart, the
    reported duration is the elapsed time in whole minutes, rounded down. *)
Theorem duration_minutes_of_forward_log_within_a_day
    (log : t) (uid : string) :
  datetime.valid (started_at log) = true ->
  datetime.valid (completed_at log) = true ->
  datetime.le (started_at log) (completed_at log) = Return true ->
  Elapsed.elapsed_us (started_at log) (completed_at log) < day_us ->
  exists s, log_workout_completion log uid = Return s
    /\ CompletionSummary.duration_minutes s
       = Elapsed.whole_minutes (started_at log) (completed_at log).
Proof.
  intros Vs Vc Hle Hday.
  apply (le_instants _ _ Vs Vc) in Hle as [Hc Hle].
  apply duration_minutes_within_a_day; [exact Hc|].
  split; [|exact Hday].
  unfold Elapsed.elapsed_us. lia.
Qed.

Lemma duration_minutes_of_forward_log_within_a_day_witness :
  exists s, log_workout_completion MoreSamples.log_two_zones "u1" = Return s
    /\ CompletionSummary.duration_minutes s = 30.
Proof.
  exact (duration_minutes_of_forward_log_within_a_day
           MoreSamples.log_two_zones "u1" eq_refl eq_refl eq_refl eq_refl).
Defined.

(** X4: the reported duration is the elapsed time in whole minutes exactly for
    the logs that do not run backwards and span less than one day; for
    every other log the two differ. *)
Theorem duration_minutes_exact_iff_within_a_day
    (log : t) (uid : string) (s : CompletionSummary.t) :
  log_workout_completion log uid = Return s ->
  CompletionSummary.duration_minutes s
  = Elapsed.whole_minutes (started_at log) (completed_at log)
  <-> 0 <= Elapsed.elapsed_us (started_at log) (completed_at log) < day_us.
Proof.
  intros E. rewrite (duration_minutes_modulo log uid s E).
  unfold Elapsed.whole_minutes, day_us.
  set (e := Elapsed.elapsed_us _ _).
  rewrite Z.mod_small_iff by lia.
  split; intros B; Z.div_mod_to_equations; lia.
Qed.

Lemma duration_minutes_exact_iff_within_a_day_witness :
  exists s, log_workout_completion Sample.log_next_day "u1" = Return s
    /\ CompletionSummary.duration_minutes s
       <> Elapsed.whole_minutes
            (started_at Sample.log_next_day) (completed_at Sample.log_next_day).
Proof.
  eexists. split; [reflexivity|].
  intros Heq.
  apply (duration_minutes_exact_iff_within_a_day
           Sample.log_next_day "u1" _ eq_refl) in Heq.
  destruct Heq as [_ Hlt]. vm_compute in Hlt. discriminate Hlt.
Defined.

(** X5: the reported duration depends on the elapsed time only modulo one day:
    two logs whose elapsed times differ by whole days (a workout that ends
    a day later, or the same instants written in other UTC offsets) are
    reported with the same duration. *)
Theorem duration_minutes_repeats_every_day
    (log1 log2 : t) (uid1 uid2 : string) (s1 s2 : CompletionSummary.t) :
  log_workout_completion log1 uid1 = Return s1 ->
  log_workout_completion log2 uid2 = Return s2 ->
  (Elapsed.elapsed_us (started_at log2) (completed_at log2)
   - Elapsed.elapsed_us (started_at log1) (completed_at log1)) mod day_us = 0 ->
  CompletionSummary.duration_minutes s1 = CompletionSummary.duration_minutes s2.
Proof.
  intros E1 E2 Hmod.
  destruct (completion_returns_summary _ _ _ E1) as (_ & _ & _ & _ & _ & _ & D1).
  destruct (completion_returns_summary _ _ _ E2) as (_ & _ & _ & _ & _ & _ & D2).
  rewrite D1, D2.
  set (e1 := Elapsed.elapsed_us (started_at log1) (completed_at log1)) in *.
  set (e2 := Elapsed.elapsed_us (started_at log2) (completed_at log2)) in *.
  unfold day_us in Hmod.
  pose proof (Z.div_mod (e2 - e1) (86400 * 1000000) ltac:(lia)) as Hk.
  rewrite Hmod in Hk.
  replace e2 with (e1 + ((e2 - e1) / (86400 * 1000000) * 86400) * 1000000)
    by lia.
  rewrite Z.div_add by lia. rewrite Z.mod_add by lia. reflexivity.
Qed.

Lemma duration_minutes_repeats_every_day_witness :
  exists s1 s2,
    log_workout_completion Sample.log_42min "u1" = Return s1
    /\ log_workout_completion Sample.log_next_day "u1" = Return s2
    /\ CompletionSummary.duration_minutes s1
       = CompletionSummary.duration_minutes s2.
Proof.
  eexists. eexists. split; [reflexivity|]. split; [reflexivity|].
  exact (duration_minutes_repeats_every_day
           Sample.log_42min Sample.log_next_day "u1" "u1" _ _
           eq_refl eq_refl eq_refl).
Defined.

End RecorderBehaviour.

(** ** Completion recorder: counts, message and identity *)

Section RecorderSummary.

Import WorkoutCompletionLog.

(** X6: in every summary the number of PRs lies between 0 and the number of
    sets logged, and the message closes with "Keep pushing." exactly when no
    set is a PR. *)
Theorem pr_count_within_sets_logged
    (log : t) (uid : string) (s : CompletionSummary.t) :
  log_workout_completion log uid = Return s ->
  0 <= CompletionSummary.new_prs s <= CompletionSummary.sets_logged s
  /\ (CompletionSummary.new_prs s = 0
      <-> CompletionSummary.message s
          = "Great work. " ++ str (CompletionSummary.sets_logged s)
            ++ " sets logged. Keep pushing.").
Proof.
  intros E.
  destruct (completion_returns_summary log uid s E)
    as (_ & _ & _ & Hn & Hp & Hm & _).
  rewrite Hn, Hp, Hm.
  pose proof (count_pr_nonneg (sets log)) as P0.
  pose proof (count_pr_le_len (sets log)) as P1.
  split; [lia|]. unfold acknowledgement.
  destruct (Z.ltb_spec 0 (count_pr (sets log))) as [Hpos|Hzero].
  - split; [lia|]. intros M.
    apply append_inj_l, append_inj_l in M.
    change (" sets logged. Keep pushing.")
      with (" sets logged. " ++ "Keep pushing.") in M.
    apply append_inj_l in M. discriminate M.
  - split; [reflexivity | lia].
Qed.

Lemma pr_count_within_sets_logged_witness :
  exists s, log_workout_completion Sample.log_42min "u1" = Return s
    /\ 0 <= CompletionSummary.new_prs s <= CompletionSummary.sets_logged s.
Proof.
  eexists. split; [reflexivity|].
  exact (proj1 (pr_count_within_sets_logged Sample.log_42min "u1" _ eq_refl)).
Defined.

(** X7: the summary reads the plan id, the two timestamps and the PR flags of
    the sets, and nothing else of the log: two logs that agree on these get
    the same answer, whatever their [user_id], their [notes] and the
    exercises, repetitions, loads and RPE of their sets. *)
Theorem summary_reads_only_plan_times_and_pr_flags
    (log1 log2 : t) (uid : string) :
  plan_id log1 = plan_id log2 ->
  started_at log1 = started_at log2 ->
  completed_at log1 = completed_at log2 ->
  pr_flags (sets log1) = pr_flags (sets log2) ->
  log_workout_completion log1 uid = log_workout_completion log2 uid.
Proof.
  intros Hp Hs Hc Hf.
  destruct (pr_flags_counts _ _ Hf) as [Hlen Hcount].
  destruct (Elapsed.comparable (started_at log1) (completed_at log1)) eqn:C1.
  - assert (C2 : Elapsed.comparable (started_at log2) (completed_at log2) = true)
      by (rewrite <- Hs, <- Hc; exact C1).
    destruct (log_workout_completion_summary log1 uid C1)
      as (s1 & E1 & A1 & B1 & P1 & N1 & R1 & M1 & D1).
    destruct (log_workout_completion_summary log2 uid C2)
      as (s2 & E2 & A2 & B2 & P2 & N2 & R2 & M2 & D2).
    rewrite E1, E2. f_equal.
    rewrite <- Hp in P2. rewrite <- Hlen in N2, M2. rewrite <- Hcount in R2, M2.
    rewrite <- Hs, <- Hc in D2.
    destruct s1, s2; cbn in *. congruence.
  - assert (C2 : Elapsed.comparable (started_at log2) (completed_at log2) = false)
      by (rewrite <- Hs, <- Hc; exact C1).
    rewrite (completion_not_comparable log1 uid C1).
    rewrite (completion_not_comparable log2 uid C2). reflexivity.
Qed.

Lemma summary_reads_only_plan_times_and_pr_flags_witness :
  WorkoutCompletionLog.user_id Sample.log_42min
  <> WorkoutCompletionLog.user_id MoreSamples.log_42min_other
  /\ log_workout_completion Sample.log_42min "u1"
     = log_workout_completion MoreSamples.log_42min_other "u1".
Proof.
  split; [discriminate|].
  exact (summary_reads_only_plan_times_and_pr_flags
           Sample.log_42min MoreSamples.log_42min_other "u1"
           eq_refl eq_refl eq_refl eq_refl).
Defined.

(** X8: a summary returned by [POST /workout/complete] names the caller of the
    request: its [user_id] is the value of the identity header, which is
    not empty, whatever [user_id] the submitted log carries. *)
Theorem summary_names_the_caller
    (log : t) (value : string) (s : CompletionSummary.t) :
  POST_workout_complete log (Some value) = Return s ->
  value <> EmptyString /\ CompletionSummary.user_id s = value.
Proof.
  unfold POST_workout_complete, get_user_id.
  destruct (String.eqb_spec value EmptyString) as [->|Hne]; cbn [bind].
  - discriminate.
  - intros E. split; [exact Hne|].
    exact (proj1 (proj2 (completion_returns_summary log value s E))).
Qed.

Lemma summary_names_the_caller_witness :
  exists s, POST_workout_complete MoreSamples.log_42min_other (Some "u1")
            = Return s
    /\ CompletionSummary.user_id s = "u1"
    /\ WorkoutCompletionLog.user_id MoreSamples.log_42min_other = "someone-else".
Proof.
  eexists. split; [reflexivity|]. split; [|reflexivity].
  exact (proj2 (summary_names_the_caller
                  MoreSamples.log_42min_other "u1" _ eq_refl)).
Defined.

(** X9: both identified routes answer 401 exactly when the identity header is
    missing or empty: the identity is checked before the body runs, so such
    a request is refused whatever the submitted log, and the body itself
    never produces a 401. *)
Theorem unauthorized_exactly_without_identity
    (log : t) (rand : N) (now : datetime.t) (x_user_id : option string) :
  (POST_workout_complete log x_user_id = Raise unauthorized
   <-> x_user_id = None \/ x_user_id = Some EmptyString)
  /\ (GET_workout_today rand now x_user_id = Raise unauthorized
      <-> x_user_id = None \/ x_user_id = Some EmptyString).
Proof.
  unfold POST_workout_complete, GET_workout_today, get_user_id, unauthorized.
  destruct x_user_id as [value|]; cbn [bind].
  - destruct (String.eqb_spec value EmptyString) as [->|Hne]; cbn [bind].
    + split; split; auto.
    + split; split.
      * intros E.
        destruct (Elapsed.comparable (started_at log) (completed_at log)) eqn:C.
        -- destruct (log_workout_completion_summary log value C) as (s & Es & _).
           rewrite Es in E. discriminate E.
        -- rewrite (completion_not_comparable log value C) in E. discriminate E.
      * intros [E|E]; [discriminate E | injection E as E; contradiction].
      * intros E. discriminate E.
      * intros [E|E]; [discriminate E | injection E as E; contradiction].
  - split; split; auto.
Qed.

End RecorderSummary.

(** ** Hybrid listing: letter case and the VITRUVIAN filter *)

Section HybridFilter.

Import ExerciseDefinition.

Lemma ascii_upper_char_idempotent (c : ascii) :
  ascii_upper_char (ascii_upper_char c) = ascii_upper_char c.
Proof.
  destruct c as [[] [] [] [] [] [] [] []]; reflexivity.
Qed.

Lemma ascii_upper_idempotent (s : string) :
  ascii_upper (ascii_upper s) = ascii_upper s.
Proof.
  induction s as [|c s IH]; cbn [ascii_upper]; [reflexivity|].
  rewrite ascii_upper_char_idempotent, IH. reflexivity.
Qed.

Lemma ascii_upper_char_ascii (c : ascii) :
  (nat_of_ascii c <? 128)%nat = true ->
  (nat_of_ascii (ascii_upper_char c) <? 128)%nat = true.
Proof.
  destruct c as [[] [] [] [] [] [] [] []]; intros E;
    first [exact E | reflexivity].
Qed.

Lemma ascii_upper_ascii (s : string) :
  ascii_only s = true -> ascii_only (ascii_upper s) = true.
Proof.
  induction s as [|c s IH]; cbn [ascii_only ascii_upper]; [reflexivity|].
  intros E. apply andb_true_iff in E as [Ec Es].
  rewrite (ascii_upper_char_ascii c Ec), (IH Es). reflexivity.
Qed.

Lemma truthy_ascii_upper (s : string) : truthy (ascii_upper s) = truthy s.
Proof. destruct s; reflexivity. Qed.

(** [ascii_upper] is one of the functions that agree with it on ASCII
    text. *)
Lemma ascii_upper_agrees : upper_agrees_on_ascii ascii_upper.
Proof. intros s _. reflexivity. Qed.

Lemma filter_none {A} (p : A -> bool) (l : list A) :
  (forall x, In x l -> p x = false) -> filter p l = [].
Proof.
  induction l as [|x l IH]; intros Hall; cbn [filter]; [reflexivity|].
  rewrite (Hall x (or_introl eq_refl)).
  apply IH. intros y Hy. apply Hall. right. exact Hy.
Qed.

(** X10: on ASCII filter values the type filter ignores letter case: two
    ASCII values that are equal up to the case of their letters select the
    same entries, and an ASCII value selects what its upper-case form
    selects. *)
Theorem hybrid_filter_ignores_letter_case
    (upper : string -> string) (ty1 ty2 : string) :
  upper_agrees_on_ascii upper ->
  ascii_only ty1 = true -> ascii_only ty2 = true ->
  ascii_upper ty1 = ascii_upper ty2 ->
  get_hybrid_exercises upper (Some ty1) = get_hybrid_exercises upper (Some ty2)
  /\ get_hybrid_exercises upper (Some (ascii_upper ty1))
     = get_hybrid_exercises upper (Some ty1).
Proof.
  intros Hup A1 A2 E.
  pose proof (Hup ty1 A1) as U1. pose proof (Hup ty2 A2) as U2.
  pose proof (Hup (ascii_upper ty1) (ascii_upper_ascii ty1 A1)) as U3.
  rewrite ascii_upper_idempotent in U3.
  assert (T : truthy ty1 = truthy ty2).
  { rewrite <- (truthy_ascii_upper ty1), <- (truthy_ascii_upper ty2), E.
    reflexivity. }
  unfold get_hybrid_exercises.
  rewrite truthy_ascii_upper, U1, U2, U3, T, E. split; reflexivity.
Qed.

Lemma hybrid_filter_ignores_letter_case_witness :
  get_hybrid_exercises ascii_upper (Some "Trx")
  = get_hybrid_exercises ascii_upper (Some "tRX")
  /\ map id (get_hybrid_exercises ascii_upper (Some "Trx"))
     = ["trx-row"; "trx-chest-press"; "trx-bicep-curl"; "trx-squat";
        "trx-plank"].
Proof.
  split; [|reflexivity].
  exact (proj1 (hybrid_filter_ignores_letter_case ascii_upper "Trx" "tRX"
                  ascii_upper_agrees eq_refl eq_refl eq_refl)).
Defined.

(** X11: asking the hybrid listing for the VITRUVIAN type, in any spelling
    that [str.upper] turns into "VITRUVIAN", gives the empty list: the type
    filter is applied to what is left after the VITRUVIAN entries were
    removed. *)
Theorem hybrid_filter_vitruvian_is_empty
    (upper : string -> string) (ty : string) :
  upper_agrees_on_ascii upper ->
  upper ty = ExerciseType.VITRUVIAN ->
  get_hybrid_exercises upper (Some ty) = [].
Proof.
  intros Hup E.
  assert (T : truthy ty = true).
  { destruct ty; [|reflexivity].
    rewrite (Hup EmptyString eq_refl) in E. discriminate E. }
  rewrite (get_hybrid_exercises_filtered upper ty T), E.
  apply filter_none. intros e He.
  apply filter_In in He as [_ He]. apply hybrid_spec in He.
  destruct (String.eqb_spec (exercise_type e) ExerciseType.VITRUVIAN);
    [contradiction | reflexivity].
Qed.

Lemma hybrid_filter_vitruvian_is_empty_witness :
  get_hybrid_exercises ascii_upper (Some "Vitruvian") = [].
Proof.
  exact (hybrid_filter_vitruvian_is_empty ascii_upper "Vitruvian"
           ascii_upper_agrees eq_refl).
Defined.

(** Looking an entry of the catalog up by its id finds that entry. *)
Lemma library_find_by_id :
  Forall (fun d => find (fun x => (id x =? id d)%string) HYBRID_EXERCISE_LIBRARY
                   = Some d)
         HYBRID_EXERCISE_LIBRARY.
Proof. repeat constructor. Qed.

(** X12: the ids of the catalog served by [GET /exercises] are pairwise
    distinct: no id occurs twice in the list, so two entries of the list
    that carry the same id are the same entry. *)
Theorem catalog_ids_are_distinct :
  NoDup (map id get_exercise_library)
  /\ (forall d1 d2,
        In d1 get_exercise_library -> In d2 get_exercise_library ->
        id d1 = id d2 -> d1 = d2).
Proof.
  unfold get_exercise_library. split.
  - assert (E : nodup string_dec (map id HYBRID_EXERCISE_LIBRARY)
                = map id HYBRID_EXERCISE_LIBRARY) by (vm_compute; reflexivity).
    rewrite <- E. apply NoDup_nodup.
  - intros d1 d2 H1 H2 E.
    pose proof (proj1 (Forall_forall _ _) library_find_by_id) as F.
    pose proof (F d1 H1) as F1. pose proof (F d2 H2) as F2.
    cbv beta in F1, F2. rewrite E in F1. rewrite F1 in F2.
    injection F2 as F2. exact F2.
Qed.

(** X13: the catalog served by [GET /exercises] is not empty; every entry has
    one of the values of [ExerciseType] as its type, has a coaching note,
    and names its type as its equipment unless it is a rest timer, whose
    equipment is "NONE". *)
Theorem exercise_library_entries_are_typed :
  get_exercise_library <> []
  /\ Forall (fun d =>
               In (exercise_type d) ExerciseType.values
               /\ coaching_note d <> None
               /\ equipment d
                  = (if (exercise_type d =? ExerciseType.REST_TIMER)%string
                     then "NONE" else exercise_type d))
            get_exercise_library.
Proof.
  split; [discriminate|].
  unfold get_exercise_library.
  pose proof library_types_defined as T.
  rewrite Forall_forall in T |- *. intros d Hd.
  split; [exact (T d Hd)|]. revert d Hd. apply Forall_forall.
  repeat constructor; discriminate.
Qed.

End HybridFilter.

(** ** Generated plans: identifier format, numbering and the catalog *)

Section GeneratedPlans.

Lemma hex_digit_is_lower_hex (d : N) :
  (d < 16)%N -> is_lower_hex (uuid.hex_digit d) = true.
Proof.
  intros Hd.
  assert (C : (d = 0 \/ d = 1 \/ d = 2 \/ d = 3 \/ d = 4 \/ d = 5 \/ d = 6
               \/ d = 7 \/ d = 8 \/ d = 9 \/ d = 10 \/ d = 11 \/ d = 12
               \/ d = 13 \/ d = 14 \/ d = 15)%N) by lia.
  repeat (destruct C as [->|C]; [reflexivity|]). subst. reflexivity.
Qed.

Lemma hex_fixed_length (k : nat) (n : N) :
  String.length (uuid.hex_fixed k n) = k.
Proof.
  induction k as [|k IH]; cbn [uuid.hex_fixed String.length];
    [reflexivity | rewrite IH; reflexivity].
Qed.

Lemma hex_fixed_lower_hex (k : nat) (n : N) :
  Forall (fun c => is_lower_hex c = true)
         (list_ascii_of_string (uuid.hex_fixed k n)).
Proof.
  induction k as [|k IH]; cbn [uuid.hex_fixed list_ascii_of_string];
    constructor; [|exact IH].
  apply hex_digit_is_lower_hex. apply N.mod_lt. discriminate.
Qed.

(** X14: every plan id is "plan_" followed by exactly eight lower-case
    hexadecimal digits (13 characters in all), whatever the random draw,
    the clock, the user and the history. *)
Theorem plan_id_is_plan_and_eight_hex_digits
    {H : Type} (rand : N) (now : datetime.t) (uid : string)
    (history : option (list H)) :
  exists digits : string,
    WorkoutPlan.plan_id (generate_workout_plan rand now uid history)
    = "plan_" ++ digits
    /\ String.length digits = 8%nat
    /\ Forall (fun c => is_lower_hex c = true) (list_ascii_of_string digits)
    /\ String.length
         (WorkoutPlan.plan_id (generate_workout_plan rand now uid history))
       = 13%nat.
Proof.
  exists (uuid.hex_fixed 8 (rand / 2 ^ 96)%N).
  rewrite plan_id_digits.
  split; [reflexivity|]. split; [apply hex_fixed_length|].
  split; [apply hex_fixed_lower_hex|].
  cbn [append String.length]. rewrite hex_fixed_length. reflexivity.
Qed.

(** X15: in every generated plan each exercise has at least one set, the sets of
    an exercise are numbered 1, 2, 3, ... in order, and the exercises carry
    the order indexes 0, 1, 2, ... of their positions; the estimated
    duration is positive. *)
Theorem planned_sets_are_numbered_from_one
    {H : Type} (rand : N) (now : datetime.t) (uid : string)
    (history : option (list H)) :
  let plan := generate_workout_plan rand now uid history in
  Forall (fun e =>
            PlannedExercise.sets e <> []
            /\ map PlannedSet.set_number (PlannedExercise.sets e)
               = zrange 1 (List.length (PlannedExercise.sets e))
            /\ Forall (fun s => 0 <= PlannedSet.rest_seconds s)
                      (PlannedExercise.sets e))
         (WorkoutPlan.exercises plan)
  /\ map PlannedExercise.order_index (WorkoutPlan.exercises plan)
     = zrange 0 (List.length (WorkoutPlan.exercises plan))
  /\ 0 < WorkoutPlan.estimated_duration_minutes plan.
Proof.
  cbv zeta. split; [|split; reflexivity].
  unfold generate_workout_plan; cbn [WorkoutPlan.exercises].
  repeat constructor; try discriminate.
Qed.

(** X16: where a planned exercise's id is the id of a catalog entry, the plan
    and the catalog agree on the exercise's type and muscle group, and the
    hybrid listing filtered by the planned type serves that entry.  (The
    names need not agree: the catalog calls the planned "Rest" entries
    "Rest (90 sec)" and "Rest (60 sec)".) *)
Theorem planned_exercises_agree_with_catalog
    {H : Type} (upper : string -> string)
    (rand : N) (now : datetime.t) (uid : string)
    (history : option (list H)) :
  upper_agrees_on_ascii upper ->
  Forall (fun e =>
            forall d,
              In d HYBRID_EXERCISE_LIBRARY ->
              ExerciseDefinition.id d = PlannedExercise.exercise_id e ->
              ExerciseDefinition.exercise_type d = PlannedExercise.exercise_type e
              /\ ExerciseDefinition.muscle_group d = PlannedExercise.muscle_group e
              /\ In d (get_hybrid_exercises upper
                         (Some (PlannedExercise.exercise_type e))))
         (WorkoutPlan.exercises (generate_workout_plan rand now uid history))
  /\ exists e d,
       In e (WorkoutPlan.exercises (generate_workout_plan rand now uid history))
       /\ In d HYBRID_EXERCISE_LIBRARY
       /\ ExerciseDefinition.id d = PlannedExercise.exercise_id e
       /\ ExerciseDefinition.name d <> PlannedExercise.exercise_name e.
Proof.
  intros Hup. split.
  - assert (K : forall ty d,
               In d HYBRID_EXERCISE_LIBRARY ->
               ExerciseDefinition.exercise_type d = ty ->
               hybrid d = true ->
               truthy ty = true ->
               ascii_only ty = true ->
               ascii_upper ty = ty ->
               In d (get_hybrid_exercises upper (Some ty))).
    { intros ty d Hd Ht Hh Htr Has Hupper.
      rewrite (get_hybrid_exercises_filtered upper _ Htr), (Hup ty Has), Hupper.
      apply filter_In. split.
      - apply filter_In. split; assumption.
      - apply String.eqb_eq. exact Ht. }
    unfold generate_workout_plan; cbn [WorkoutPlan.exercises].
    repeat (apply Forall_cons || apply Forall_nil); intros d Hd Hid;
      cbn [PlannedExercise.exercise_id PlannedExercise.exercise_type
           PlannedExercise.muscle_group] in *;
      pose proof Hd as Hin;
      repeat (destruct Hd as [<-|Hd]; [try discriminate Hid|]);
      try contradiction;
      (split; [reflexivity|]; split; [reflexivity|]);
      (apply K; [exact Hin | reflexivity | reflexivity | reflexivity
                | reflexivity | reflexivity]).
  - eexists (PlannedExercise.mk 1 "rest-90" "Rest"
               ExerciseType.REST_TIMER "RECOVERY"
               [ PlannedSet.new 1 "REST" None None 90 ]
               90 None (Some "DOUBLE") false).
    exists (ExerciseDefinition.seed "rest-90" "Rest (90 sec)"
              ExerciseType.REST_TIMER "RECOVERY" "NONE"
              "Longer recovery for heavy compound sets.").
    split; [right; left; reflexivity|].
    split; [do 21 right; left; reflexivity|].
    split; [reflexivity | discriminate].
Qed.

Lemma planned_exercises_agree_with_catalog_witness :
  Forall (fun e =>
            forall d,
              In d HYBRID_EXERCISE_LIBRARY ->
              ExerciseDefinition.id d = PlannedExercise.exercise_id e ->
              ExerciseDefinition.exercise_type d = PlannedExercise.exercise_type e
              /\ ExerciseDefinition.muscle_group d = PlannedExercise.muscle_group e
              /\ In d (get_hybrid_exercises ascii_upper
                         (Some (PlannedExercise.exercise_type e))))
         (WorkoutPlan.exercises
            (generate_workout_plan Sample.rand1 (Sample.at_ 1 10 0) "u1"
                                   (@None (list unit)))).
Proof.
  exact (proj1 (planned_exercises_agree_with_catalog ascii_upper
                  Sample.rand1 (Sample.at_ 1 10 0) "u1" (@None (list unit))
                  ascii_upper_agrees)).
Defined.

End GeneratedPlans.
